(** * parse_cluster_yaml.py: flattening a cluster configuration into
      shell variable assignments

    A shallow embedding of [src/lib/parse_cluster_yaml.py].  The script
    loads a YAML document, walks its [project], [jobs] and [claude]
    sections and prints [NAME=value] lines whose values went through
    [shlex.quote].

    Python objects are dynamically typed, so the document is a value of
    the inductive type [pyval]; every builtin the script calls is given
    with the exception it raises on the wrong kind of object.  Python
    [str] is modelled as a byte string (the UTF-8 encoding): [shlex.quote]
    treats every non-ASCII character as unsafe, which is what it does to
    every byte above 127 here; [str.lower] and [repr] act on the ASCII
    bytes.

    The file system and the YAML parser are outside the script: the
    process is given as a function of what [open] and [yaml.safe_load]
    come to for each path.  The shell that reads the output is outside
    it as well, and stands here as a model of POSIX quoting, in which a
    NUL byte is lost.  [str] of an integer is given for every integer,
    whereas CPython refuses those of more than 4300 digits: see
    [renders]. *)

From Stdlib Require Import ZArith List String Ascii Bool Lia FinFun.
From Stdlib Require Import DecimalString DecimalNat SpecFloat.
Import ListNotations.

Local Open Scope list_scope.
Local Open Scope string_scope.
Local Set Warnings "-register-all".

(** ** Exceptions and the error monad *)

Module Py.

(** The exception classes that can occur while the script runs. *)
Inductive exn : Type :=
| FileNotFoundError
| YAMLError (msg : string)      (* [str(e)] of the parser's exception *)
| AttributeError
| TypeError.

Inductive result (A : Type) : Type :=
| Ok (a : A)
| Raise (e : exn).
Arguments Ok {A} a.
Arguments Raise {A} e.

Definition bind {A B} (r : result A) (k : A -> result B) : result B :=
  match r with
  | Ok a => k a
  | Raise e => Raise e
  end.

Definition fmap {A B} (f : A -> B) (r : result A) : result B :=
  bind r (fun a => Ok (f a)).

Definition is_ok {A} (r : result A) : bool :=
  match r with Ok _ => true | Raise _ => false end.

Declare Scope py_scope.
Delimit Scope py_scope with py.
Notation "x <- c ;; k" := (bind c (fun x => k))
  (at level 61, c at next level, right associativity) : py_scope.

(** ** Values

    What [yaml.safe_load] builds from the core YAML schema: [None],
    [bool], [int], [float], [str], [list] and [dict].  A [dict] is the
    list of its items in insertion order; its keys are pairwise
    distinct. *)
Inductive pyval : Type :=
| YNull
| YBool (b : bool)
| YInt (z : Z)
| YFloat (f : spec_float)       (* a binary64 *)
| YStr (s : string)
| YSeq (l : list pyval)
| YMap (d : list (pyval * pyval)).

Definition dict := list (pyval * pyval).
Bind Scope list_scope with dict.

(** [k == s] for a dictionary key [k] and a [str] [s]: only a [str]
    compares equal to a [str]. *)
Definition key_is (s : string) (k : pyval) : bool :=
  match k with
  | YStr s' => String.eqb s' s
  | _ => false
  end.

Fixpoint dict_find (d : dict) (key : string) : option pyval :=
  match d with
  | [] => None
  | (k, v) :: d' => if key_is key k then Some v else dict_find d' key
  end.

(** [d.get(key, default)] on a [dict]. *)
Definition dict_get (d : dict) (key : string) (default : pyval) : pyval :=
  match dict_find d key with
  | Some v => v
  | None => default
  end.

(** [v.get(key, default)] on any object: only a [dict] has the method. *)
Definition py_get (v : pyval) (key : string) (default : pyval) : result pyval :=
  match v with
  | YMap d => Ok (dict_get d key default)
  | _ => Raise AttributeError
  end.

(** The elements [for x in v] visits; a [dict] yields its keys, a [str]
    its characters. *)
Fixpoint chars (s : string) : list pyval :=
  match s with
  | EmptyString => []
  | String c s' => YStr (String c EmptyString) :: chars s'
  end.

Definition py_iter (v : pyval) : result (list pyval) :=
  match v with
  | YSeq l => Ok l
  | YMap d => Ok (map fst d)
  | YStr s => Ok (chars s)
  | _ => Raise TypeError
  end.

(** [len(v)]. *)
Definition py_len (v : pyval) : result nat :=
  match v with
  | YSeq l => Ok (List.length l)
  | YMap d => Ok (List.length d)
  | YStr s => Ok (String.length s)
  | _ => Raise TypeError
  end.

(** [isinstance(v, str)]. *)
Definition is_str (v : pyval) : bool :=
  match v with YStr _ => true | _ => false end.

(** [bool(v)], the test of [if v:]. *)
Definition py_truthy (v : pyval) : bool :=
  match v with
  | YNull => false
  | YBool b => b
  | YInt z => negb (Z.eqb z 0)
  | YFloat (S754_zero _) => false
  | YFloat _ => true
  | YStr s => negb (String.eqb s "")
  | YSeq l => match l with [] => false | _ => true end
  | YMap d => match d with [] => false | _ => true end
  end.

(** ** Decimal rendering of integers: [str(n)], [f"{n}"] *)

Definition str_nat (n : nat) : string :=
  NilZero.string_of_uint (Nat.to_uint n).

Definition str_int (z : Z) : string :=
  NilZero.string_of_int (Z.to_int z).

(** CPython (3.11, and the releases since 3.10.7) refuses to print an
    integer of more than 4300 decimal digits, the sign not counted:
    [str] and [repr] raise [ValueError], also for a sequence or a
    mapping that holds such an integer.  A YAML integer in hexadecimal
    can be that long.  [str_int] prints every integer; [renders] says
    that a value holds no integer beyond the limit, and the statements
    that depend on the difference are made for the values it accepts. *)
Definition max_str_digits : nat := 4300.

Definition int_renders (z : Z) : bool :=
  (String.length (str_int (Z.abs z)) <=? max_str_digits)%nat.

Fixpoint renders (v : pyval) : bool :=
  match v with
  | YInt z => int_renders z
  | YSeq l => forallb renders l
  | YMap d => forallb (fun kv => let '(k, x) := kv in renders k && renders x) d
  | _ => true
  end.

(** ** [repr] of a float

    CPython prints a float with the shortest string of decimal digits
    that reads back, under round-half-even, as the same binary64, and
    among those the one nearest to the float; [repr] then lays the
    digits out in fixed notation when the decimal point position [decpt]
    satisfies [-4 < decpt <= 16], in exponent notation otherwise.  All
    comparisons below are exact, on integers. *)

(** [a * 2^ea ?= k * 10^p]. *)
Definition cmp_scaled (a ea k p : Z) : comparison :=
  Z.compare (a * 2 ^ Z.max ea 0 * 10 ^ Z.max (- p) 0)
            (k * 10 ^ Z.max p 0 * 2 ^ Z.max (- ea) 0).

(** The binary64 significand brought to 53 bits where the exponent
    allows it. *)
Definition float_canon (m e : Z) : Z * Z :=
  let d := Z.min (53 - (Z.log2 m + 1)) (e + 1074) in
  if (0 <? d)%Z then (m * 2 ^ d, e - d)%Z else (m, e).

(** [k * 10^p] reads back as [m * 2^e]: it lies between the midpoints
    to the neighbouring floats, the midpoints included when [m] is
    even.  The unit is [2^(e-2)]. *)
Definition float_reads_back (m e k p : Z) : bool :=
  let below := if ((m =? 2 ^ 52) && (-1074 <? e))%Z then 1%Z else 2%Z in
  let lo := cmp_scaled (4 * m - below) (e - 2) k p in
  let hi := cmp_scaled (4 * m + 2) (e - 2) k p in
  match lo, hi with
  | Lt, Gt => true
  | Eq, _ | _, Eq => Z.even m
  | _, _ => false
  end.

(** The least [d], searching upwards from [d0], with [m * 2^e < 10^d]. *)
Fixpoint float_decpt (fuel : nat) (m e d0 : Z) : Z :=
  match fuel with
  | O => d0
  | S fuel' =>
      match cmp_scaled m e 1 d0 with
      | Lt => d0
      | _ => float_decpt fuel' m e (d0 + 1)%Z
      end
  end.

(** The shortest digits: with [n] digits try the two decimals around the
    float, keep the nearer one that reads back, otherwise take one
    digit more.  Returns the digits as an integer [k] and the exponent
    [p], the float being printed as [k * 10^p]. *)
Fixpoint float_shortest (fuel : nat) (m e d n : Z) : Z * Z :=
  let p := (d - n)%Z in
  let k0 := (m * 2 ^ Z.max e 0 * 10 ^ Z.max (- p) 0
             / (2 ^ Z.max (- e) 0 * 10 ^ Z.max p 0))%Z in
  let k1 := (k0 + 1)%Z in
  match fuel with
  | O => (k0, p)
  | S fuel' =>
      match float_reads_back m e k0 p, float_reads_back m e k1 p with
      | true, false => (k0, p)
      | false, true => (k1, p)
      | true, true =>
          match cmp_scaled (2 * m) e (k0 + k1) p with
          | Lt => (k0, p)
          | Gt => (k1, p)
          | Eq => if Z.even k0 then (k0, p) else (k1, p)
          end
      | false, false => float_shortest fuel' m e d (n + 1)%Z
      end
  end.

Fixpoint zeros (n : nat) : string :=
  match n with
  | O => ""
  | S n' => String "0" (zeros n')
  end.

Fixpoint rstrip_zeros (s : string) : string :=
  match s with
  | EmptyString => EmptyString
  | String c s' =>
      match rstrip_zeros s' with
      | EmptyString => if Ascii.eqb c "0" then EmptyString else String c EmptyString
      | t => String c t
      end
  end.

(** Layout of the digits [ds] with the decimal point after the first
    [decpt] of them. *)
Definition float_layout (ds : string) (decpt : Z) : string :=
  let nd := Z.of_nat (String.length ds) in
  if ((decpt <=? -4) || (16 <? decpt))%Z then
    let ex := (decpt - 1)%Z in
    let mant := match ds with
                | String c EmptyString => ds
                | String c rest => String c ("." ++ rest)
                | EmptyString => ds
                end in
    let digits := str_int (Z.abs ex) in
    mant ++ "e" ++ (if (ex <? 0)%Z then "-" else "+")
         ++ (if (Z.abs ex <? 10)%Z then "0" else "") ++ digits
  else if (decpt <=? 0)%Z then
    "0." ++ zeros (Z.to_nat (- decpt)) ++ ds
  else if (nd <=? decpt)%Z then
    ds ++ zeros (Z.to_nat (decpt - nd)) ++ ".0"
  else
    substring 0 (Z.to_nat decpt) ds ++ "."
      ++ substring (Z.to_nat decpt) (Z.to_nat (nd - decpt)) ds.

Definition float_repr (f : spec_float) : string :=
  match f with
  | S754_nan => "nan"
  | S754_infinity s => if s then "-inf" else "inf"
  | S754_zero s => if s then "-0.0" else "0.0"
  | S754_finite s m0 e0 =>
      let '(m, e) := float_canon (Zpos m0) e0 in
      let d := float_decpt 640 m e (-324) in
      let '(k, p) := float_shortest 17 m e d 1 in
      let all := str_int k in
      let decpt := (p + Z.of_nat (String.length all))%Z in
      (if s then "-" else "") ++ float_layout (rstrip_zeros all) decpt
  end.

(** ** Characters and strings *)

Definition squote : ascii := "'"%char.
Definition dquote : ascii := Eval cbv in ascii_of_nat 34.
Definition backslash : ascii := "\"%char.
Definition dollar : ascii := "$"%char.
Definition backtick : ascii := "`"%char.
Definition tab : ascii := Eval cbv in ascii_of_nat 9.
Definition newline : ascii := Eval cbv in ascii_of_nat 10.
Definition nul : ascii := Eval cbv in ascii_of_nat 0.
Definition creturn : ascii := Eval cbv in ascii_of_nat 13.
Definition nl : string := String newline EmptyString.

Definition in_range (lo hi : nat) (c : ascii) : bool :=
  let n := nat_of_ascii c in (lo <=? n)%nat && (n <=? hi)%nat.

Definition is_digit (c : ascii) : bool := in_range 48 57 c.
Definition is_upper (c : ascii) : bool := in_range 65 90 c.
Definition is_lower (c : ascii) : bool := in_range 97 122 c.

Fixpoint str_forall (p : ascii -> bool) (s : string) : bool :=
  match s with
  | EmptyString => true
  | String c s' => p c && str_forall p s'
  end.

Fixpoint str_contains (c : ascii) (s : string) : bool :=
  match s with
  | EmptyString => false
  | String c' s' => Ascii.eqb c' c || str_contains c s'
  end.

(** [s.startswith(p)] *)
Fixpoint starts_with (p s : string) : bool :=
  match p with
  | EmptyString => true
  | String a p' =>
      match s with
      | EmptyString => false
      | String b s' => Ascii.eqb a b && starts_with p' s'
      end
  end.

(** [s.lower()], on the ASCII letters. *)
Definition lower_char (c : ascii) : ascii :=
  if is_upper c then ascii_of_nat (nat_of_ascii c + 32) else c.

Fixpoint str_lower (s : string) : string :=
  match s with
  | EmptyString => EmptyString
  | String c s' => String (lower_char c) (str_lower s')
  end.

(** [s.replace(old, new)] for a one-character [old]. *)
Fixpoint str_replace (old : ascii) (new : string) (s : string) : string :=
  match s with
  | EmptyString => EmptyString
  | String c s' =>
      (if Ascii.eqb c old then new else String c EmptyString)
        ++ str_replace old new s'
  end.

(** [repr(s)] of a [str]: single quotes unless the string holds a single
    quote and no double quote; the quote character and the backslash are
    escaped, control characters are written as escapes. *)
Definition hex_digit (n : nat) : ascii :=
  match get n "0123456789abcdef" with
  | Some c => c
  | None => "0"%char
  end.

Definition repr_char (q c : ascii) : string :=
  let n := nat_of_ascii c in
  if Ascii.eqb c q || Ascii.eqb c backslash then String backslash (String c "")
  else if Ascii.eqb c tab then "\t"
  else if Ascii.eqb c newline then "\n"
  else if Ascii.eqb c creturn then "\r"
  else if (n <? 32)%nat || (n =? 127)%nat then
    "\x" ++ String (hex_digit (n / 16)) (String (hex_digit (n mod 16)) "")
  else String c "".

Fixpoint repr_chars (q : ascii) (s : string) : string :=
  match s with
  | EmptyString => EmptyString
  | String c s' => repr_char q c ++ repr_chars q s'
  end.

Definition str_repr (s : string) : string :=
  let q := if str_contains squote s && negb (str_contains dquote s)
           then dquote else squote in
  String q (repr_chars q s ++ String q "").

(** ** [repr(v)] and [str(v)] *)

Fixpoint py_repr (v : pyval) : string :=
  match v with
  | YNull => "None"
  | YBool b => if b then "True" else "False"
  | YInt z => str_int z
  | YFloat f => float_repr f
  | YStr s => str_repr s
  | YSeq l =>
      "[" ++ (fix items (l : list pyval) : string :=
                match l with
                | [] => ""
                | x :: r =>
                    py_repr x ++ match r with [] => "" | _ => ", " ++ items r end
                end) l ++ "]"
  | YMap d =>
      "{" ++ (fix items (d : list (pyval * pyval)) : string :=
                match d with
                | [] => ""
                | (k, x) :: r =>
                    py_repr k ++ ": " ++ py_repr x
                      ++ match r with [] => "" | _ => ", " ++ items r end
                end) d ++ "}"
  end.

Definition py_str (v : pyval) : string :=
  match v with
  | YStr s => s
  | _ => py_repr v
  end.

(** ** [sep.join(v)]: [v] must be iterable and yield only [str]. *)

Fixpoint str_items (l : list pyval) : result (list string) :=
  match l with
  | [] => Ok []
  | YStr s :: r => bind (str_items r) (fun ss => Ok (s :: ss))
  | _ :: _ => Raise TypeError
  end.

Definition str_join (sep : string) (v : pyval) : result string :=
  bind (py_iter v) (fun l =>
  bind (str_items l) (fun ss =>
  Ok (String.concat sep ss))).

End Py.

(** ** [shlex.quote] *)

Module Shlex.
Import Py.

(** The characters of [[\w@%+=:,./-]] under [re.ASCII]. *)
Definition safe_char (c : ascii) : bool :=
  is_digit c || is_upper c || is_lower c || str_contains c "_@%+=:,./-".

(** [_find_unsafe(s) is None]. *)
Definition all_safe (s : string) : bool := str_forall safe_char s.

(** What replaces a single quote: close the quotes, a quoted single
    quote, open the quotes again. *)
Definition quoted_squote : string :=
  String squote (String dquote (String squote (String dquote (String squote "")))).

Definition quote (s : string) : string :=
  if String.eqb s "" then "''"
  else if all_safe s then s
  else String squote (str_replace squote quoted_squote s ++ String squote "").

End Shlex.

(** ** The shell that evaluates the output

    A model of how a POSIX shell reads the word of an assignment
    [NAME=word] (Shell Command Language, 2.2 Quoting): between single
    quotes every character stands for itself; between double quotes
    every character but [$], the backquote and the backslash does;
    outside quotes every character that is not an operator, a blank, a
    quote, or the start of an expansion or of a pattern does.  [None]
    says that the word needs more of the shell than that (an expansion,
    an escape, a second word) or that a quote is left open.  Texts are
    strings of bytes; a NUL byte in a word is dropped, as dash and bash
    do. *)

Module Sh.
Import Py.

Inductive mode : Type := Bare | Single | Double.

Definition meta (c : ascii) : bool :=
  str_contains c "|&;<>()$`\' *?[#~"
  || Ascii.eqb c dquote || Ascii.eqb c tab || Ascii.eqb c newline.

Definition cons_char (c : ascii) (r : option string) : option string :=
  match r with
  | Some s => Some (String c s)
  | None => None
  end.

(** The NUL byte, which no shell variable can hold: the shell drops it
    from what it reads. *)
Fixpoint strip_nul (s : string) : string :=
  match s with
  | EmptyString => EmptyString
  | String c s' =>
      if Ascii.eqb c nul then strip_nul s' else String c (strip_nul s')
  end.

Fixpoint word (m : mode) (s : string) : option string :=
  match s with
  | EmptyString => match m with Bare => Some "" | _ => None end
  | String c s' =>
      if Ascii.eqb c nul then word m s'
      else
      match m with
      | Bare =>
          if Ascii.eqb c squote then word Single s'
          else if Ascii.eqb c dquote then word Double s'
          else if meta c then None
          else cons_char c (word Bare s')
      | Single =>
          if Ascii.eqb c squote then word Bare s'
          else cons_char c (word Single s')
      | Double =>
          if Ascii.eqb c dquote then word Bare s'
          else if Ascii.eqb c dollar || Ascii.eqb c backtick
                  || Ascii.eqb c backslash then None
          else cons_char c (word Double s')
      end
  end.

(** A variable name: letters, digits and underscores, no digit first. *)
Definition name_char (c : ascii) : bool :=
  is_digit c || is_upper c || is_lower c || Ascii.eqb c "_".

Definition is_name (s : string) : bool :=
  match s with
  | EmptyString => false
  | String c _ => negb (is_digit c) && str_forall name_char s
  end.

(** The text before the first [=], and the text after it. *)
Fixpoint split_eq (s : string) : option (string * string) :=
  match s with
  | EmptyString => None
  | String c s' =>
      if Ascii.eqb c "=" then Some ("", s')
      else match split_eq s' with
           | Some (n, w) => Some (String c n, w)
           | None => None
           end
  end.

(** The variable an assignment sets and the value it gets. *)
Definition assign (line : string) : option (string * string) :=
  match split_eq line with
  | Some (n, w) =>
      if is_name n then
        match word Bare w with
        | Some v => Some (n, v)
        | None => None
        end
      else None
  | None => None
  end.

End Sh.

(** ** The script *)

Module ParseClusterYaml.
Import Py.
Local Open Scope py_scope.

(** [shell_escape(value)] *)
Definition shell_escape (value : pyval) : string :=
  match value with
  | YNull => ""
  | _ => Shlex.quote (py_str value)
  end.

(** Lines 47-49: the project metadata. *)
Definition project_lines (config : pyval) : result (list string) :=
  project <- py_get config "project" (YMap []) ;;
  if py_truthy project then
    name <- py_get project "name" (YStr "") ;;
    Ok ["PROJECT_NAME=" ++ shell_escape name]
  else Ok [].

(** Lines 63-65: the dependencies as the object handed to [','.join]. *)
Definition depends_of (job : pyval) : result pyval :=
  depends <- py_get job "depends_on" (YSeq []) ;;
  Ok (if is_str depends then YSeq [depends] else depends).

(** Lines 56-70: the body of the loop, for the job at index [i]. *)
Definition job_lines (i : nat) (job : pyval) : result (list string) :=
  let line := fun field value =>
    "JOB_" ++ str_nat i ++ field ++ shell_escape value in
  name <- py_get job "name" (YStr ("job_" ++ str_nat i)) ;;
  script <- py_get job "script" (YStr "") ;;
  type <- py_get job "type" (YStr "sbatch") ;;
  array <- py_get job "array" (YStr "") ;;
  depends <- depends_of job ;;
  joined <- str_join "," depends ;;
  extra <- py_get job "sbatch_flags" (YStr "") ;;
  Ok [ line "_NAME=" name;
       line "_SCRIPT=" script;
       line "_TYPE=" type;
       line "_ARRAY=" array;
       line "_DEPENDS_ON=" (YStr joined);
       line "_SBATCH_FLAGS=" extra ].

(** Line 55: [for i, job in enumerate(jobs)], counting from [i]. *)
Fixpoint jobs_loop (i : nat) (jobs : list pyval) : result (list string) :=
  match jobs with
  | [] => Ok []
  | job :: rest =>
      ls <- job_lines i job ;;
      more <- jobs_loop (S i) rest ;;
      Ok (ls ++ more)%list
  end.

(** Lines 74-75: a flag, [str(claude.get(key, False)).lower()]. *)
Definition flag (claude : pyval) (key : string) : result pyval :=
  v <- py_get claude key (YBool false) ;;
  Ok (YStr (str_lower (py_str v))).

(** Lines 73-80: the Claude configuration. *)
Definition claude_lines (claude : pyval) : result (list string) :=
  enabled <- flag claude "enabled" ;;
  auto_fix <- flag claude "auto_fix" ;;
  max_fix_cycles <- py_get claude "max_fix_cycles" (YInt 3) ;;
  review_model <- py_get claude "review_model" (YStr "sonnet") ;;
  fix_model <- py_get claude "fix_model" (YStr "opus") ;;
  review_budget <- py_get claude "review_budget" (YStr "0.50") ;;
  fix_budget <- py_get claude "fix_budget" (YStr "1.00") ;;
  Ok [ "CLAUDE_ENABLED=" ++ shell_escape enabled;
       "CLAUDE_AUTO_FIX=" ++ shell_escape auto_fix;
       "CLAUDE_MAX_FIX_CYCLES=" ++ shell_escape max_fix_cycles;
       "CLAUDE_REVIEW_MODEL=" ++ shell_escape review_model;
       "CLAUDE_FIX_MODEL=" ++ shell_escape fix_model;
       "CLAUDE_REVIEW_BUDGET=" ++ shell_escape review_budget;
       "CLAUDE_FIX_BUDGET=" ++ shell_escape fix_budget ].

(** Lines 52-70: the jobs. *)
Definition jobs_lines (config : pyval) : result (list string) :=
  jobs <- py_get config "jobs" (YSeq []) ;;
  n <- py_len jobs ;;
  elems <- py_iter jobs ;;
  ls <- jobs_loop 0 elems ;;
  Ok (("NUM_JOBS=" ++ str_nat n) :: ls).

(** Lines 44-80: the list [lines] when the function reaches its
    [return]. *)
Definition config_lines (config : pyval) : result (list string) :=
  p <- project_lines config ;;
  j <- jobs_lines config ;;
  claude <- py_get config "claude" (YMap []) ;;
  c <- claude_lines claude ;;
  Ok (p ++ j ++ c)%list.

(** Line 82: the text returned for a loaded document. *)
Definition flatten (config : pyval) : result string :=
  fmap (String.concat nl) (config_lines config).

(** What [open(path)] followed by [yaml.safe_load(f)] comes to: the file
    is missing, the parser rejects its content with a message, or the
    content is loaded as an object.  (The other ways [open] can fail, on
    a directory or on a file that may not be read, are left out.) *)
Inductive loaded : Type :=
| NoSuchFile
| Malformed (msg : string)
| Document (config : pyval).

(** How the process ends: it exits with a status after writing [out] to
    standard output and [err] to standard error, or it dies of an
    exception nobody caught, in which case the interpreter prints a
    traceback to standard error and the status is 1. *)
Inductive outcome : Type :=
| Exit (status : Z) (out err : string)
| Uncaught (e : exn).

Definition exit_status (o : outcome) : Z :=
  match o with
  | Exit n _ _ => n
  | Uncaught _ => 1%Z
  end.

Definition stdout (o : outcome) : string :=
  match o with
  | Exit _ out _ => out
  | Uncaught _ => ""
  end.

Section Process.

Variable load : string -> loaded.

(** [parse_cluster_yaml(path)] *)
Definition parse_cluster_yaml (path : string) : result string :=
  match load path with
  | NoSuchFile => Raise FileNotFoundError
  | Malformed msg => Raise (YAMLError msg)
  | Document config => flatten config
  end.

(** The [__main__] block, with [sys.argv = prog :: args]; [print]
    appends a newline. *)
Definition main (prog : string) (args : list string) : outcome :=
  match args with
  | [path] =>
      match parse_cluster_yaml path with
      | Ok output => Exit 0 (output ++ nl) ""
      | Raise FileNotFoundError =>
          Exit 1 "" ("Error: " ++ path ++ " not found" ++ nl)
      | Raise (YAMLError e) =>
          Exit 1 "" ("Error parsing YAML: " ++ e ++ nl)
      | Raise e => Uncaught e
      end
  | _ => Exit 1 "" ("Usage: " ++ prog ++ " <cluster.yaml>" ++ nl)
  end.

End Process.

(** ** The documents the function accepts *)

Definition is_map (v : pyval) : bool :=
  match v with YMap _ => true | _ => false end.

Definition all_str (l : list pyval) : bool := forallb is_str l.

(** The jobs the loop body gets through: a mapping whose [depends_on],
    when it is not a string, is an iterable of strings. *)
Definition valid_job (job : pyval) : bool :=
  match job with
  | YMap d =>
      match dict_get d "depends_on" (YSeq []) with
      | YStr _ => true
      | YSeq l => all_str l
      | YMap m => all_str (map fst m)
      | _ => false
      end
  | _ => false
  end.

Definition valid_jobs (jobs : pyval) : bool :=
  match jobs with
  | YSeq l => forallb valid_job l
  | YMap m => forallb valid_job (map fst m)
  | YStr s => forallb valid_job (chars s)
  | _ => false
  end.

(** The project section the function gets through: one that counts as
    false, or a mapping. *)
Definition valid_project (project : pyval) : bool :=
  negb (py_truthy project) || is_map project.

Definition valid_config (config : pyval) : bool :=
  match config with
  | YMap d =>
      valid_project (dict_get d "project" (YMap []))
      && valid_jobs (dict_get d "jobs" (YSeq []))
      && is_map (dict_get d "claude" (YMap []))
  | _ => false
  end.

(** The lines that assign a variable whose name starts with [p]. *)
Definition lines_of (p : string) (ls : list string) : list string :=
  filter (starts_with p) ls.

(** The names of the six variables of the job at index [i], and of the
    seven variables of the Claude configuration. *)
Definition job_vars (i : nat) : list string :=
  map (fun field => "JOB_" ++ str_nat i ++ field)
      ["_NAME="; "_SCRIPT="; "_TYPE="; "_ARRAY="; "_DEPENDS_ON=";
       "_SBATCH_FLAGS="].

Definition claude_vars : list string :=
  ["CLAUDE_ENABLED="; "CLAUDE_AUTO_FIX="; "CLAUDE_MAX_FIX_CYCLES=";
   "CLAUDE_REVIEW_MODEL="; "CLAUDE_FIX_MODEL="; "CLAUDE_REVIEW_BUDGET=";
   "CLAUDE_FIX_BUDGET="].

(** [lines] assign the variables [vars], one line each, in that order. *)
Definition assigns (vars lines : list string) : Prop :=
  Forall2 (fun v l => starts_with v l = true) vars lines.

(** The index a job line carries: the digits between [JOB_] and the
    next underscore, read in decimal. *)
Fixpoint strip_prefix (p s : string) : option string :=
  match p with
  | EmptyString => Some s
  | String a p' =>
      match s with
      | EmptyString => None
      | String b s' => if Ascii.eqb a b then strip_prefix p' s' else None
      end
  end.

Fixpoint take_digits (s : string) : string * string :=
  match s with
  | EmptyString => ("", "")
  | String c s' =>
      if is_digit c then
        let '(ds, r) := take_digits s' in (String c ds, r)
      else ("", s)
  end.

Definition job_index (line : string) : option nat :=
  match strip_prefix "JOB_" line with
  | Some rest =>
      let '(ds, r) := take_digits rest in
      if starts_with "_" r
      then option_map Nat.of_uint (NilZero.uint_of_string ds)
      else None
  | None => None
  end.

(** The last character of a text. *)
Fixpoint last_char (s : string) : option ascii :=
  match s with
  | EmptyString => None
  | String c s' =>
      match last_char s' with
      | Some c' => Some c'
      | None => Some c
      end
  end.

(** The binary64 [f] is exactly the decimal [k * 10^p]. *)
Definition float_is_decimal (f : spec_float) (k p : Z) : bool :=
  match f with
  | S754_finite false m e =>
      match cmp_scaled (Zpos m) e k p with Eq => true | _ => false end
  | _ => false
  end.

End ParseClusterYaml.

(** ** Notions and documents the properties are stated with *)

Import Py ParseClusterYaml.
Local Open Scope py_scope.

(** A value with a single quote, double quotes, a dollar, backquotes, a
    newline and blanks. *)
Definition awkward : string :=
  "it's " ++ String dquote ("$HOME" ++ String dquote (" `id`" ++ nl ++ "x y")).

(** An exception the [__main__] block has no handler for. *)
Definition unhandled (e : exn) : Prop := e = AttributeError \/ e = TypeError.

(** A computation that raises nothing else. *)
Definition raises_unhandled {A} (r : result A) : Prop :=
  forall e, r = Raise e -> unhandled e.

(** The six lines of a job, spelled out. *)
Definition six_lines (i : nat) (jd : dict) (joined : string) : list string :=
  [ "JOB_" ++ str_nat i ++ "_NAME="
      ++ shell_escape (dict_get jd "name" (YStr ("job_" ++ str_nat i)));
    "JOB_" ++ str_nat i ++ "_SCRIPT="
      ++ shell_escape (dict_get jd "script" (YStr ""));
    "JOB_" ++ str_nat i ++ "_TYPE="
      ++ shell_escape (dict_get jd "type" (YStr "sbatch"));
    "JOB_" ++ str_nat i ++ "_ARRAY="
      ++ shell_escape (dict_get jd "array" (YStr ""));
    "JOB_" ++ str_nat i ++ "_DEPENDS_ON=" ++ shell_escape (YStr joined);
    "JOB_" ++ str_nat i ++ "_SBATCH_FLAGS="
      ++ shell_escape (dict_get jd "sbatch_flags" (YStr "")) ].

(** The seven lines of the Claude configuration, spelled out. *)
Definition seven_lines (cd : dict) : list string :=
  [ "CLAUDE_ENABLED="
      ++ shell_escape (YStr (str_lower (py_str (dict_get cd "enabled" (YBool false)))));
    "CLAUDE_AUTO_FIX="
      ++ shell_escape (YStr (str_lower (py_str (dict_get cd "auto_fix" (YBool false)))));
    "CLAUDE_MAX_FIX_CYCLES="
      ++ shell_escape (dict_get cd "max_fix_cycles" (YInt 3));
    "CLAUDE_REVIEW_MODEL="
      ++ shell_escape (dict_get cd "review_model" (YStr "sonnet"));
    "CLAUDE_FIX_MODEL=" ++ shell_escape (dict_get cd "fix_model" (YStr "opus"));
    "CLAUDE_REVIEW_BUDGET="
      ++ shell_escape (dict_get cd "review_budget" (YStr "0.50"));
    "CLAUDE_FIX_BUDGET="
      ++ shell_escape (dict_get cd "fix_budget" (YStr "1.00")) ].

(** The document of the specification's example: a project name, one
    job, no [claude] section. *)
Definition demo_items : dict :=
  [ (YStr "project", YMap [(YStr "name", YStr "demo")]);
    (YStr "jobs",
     YSeq [ YMap [ (YStr "name", YStr "simulation");
                   (YStr "script", YStr "submit_gate.sbatch");
                   (YStr "array", YStr "1-10") ] ]) ].

Definition demo : pyval := YMap demo_items.

(** Two jobs, the second waiting for the first. *)
Definition two_jobs : pyval :=
  YMap [ (YStr "jobs",
          YSeq [ YMap [(YStr "name", YStr "simulation")];
                 YMap [(YStr "name", YStr "merge_results");
                       (YStr "depends_on", YStr "simulation")] ]) ].

(** A document whose project section is there, as an empty mapping. *)
Definition empty_project : pyval := YMap [(YStr "project", YMap [])].

(** The seven lines of a document without [claude] section. *)
Definition claude_defaults : list string :=
  [ "CLAUDE_ENABLED=false"; "CLAUDE_AUTO_FIX=false"; "CLAUDE_MAX_FIX_CYCLES=3";
    "CLAUDE_REVIEW_MODEL=sonnet"; "CLAUDE_FIX_MODEL=opus";
    "CLAUDE_REVIEW_BUDGET=0.50"; "CLAUDE_FIX_BUDGET=1.00" ].

(** A directory with one configuration, one file the parser rejects,
    and nothing else. *)
Definition disk (path : string) : loaded :=
  if String.eqb path "cluster.yaml" then Document demo
  else if String.eqb path "broken.yaml"
       then Malformed "mapping values are not allowed here"
       else NoSuchFile.

(** A directory where every file is empty: an empty document loads as
    [None]. *)
Definition empty_files (path : string) : loaded := Document YNull.

(** Documents with a null where a section is expected. *)
Definition null_jobs : dict := [(YStr "jobs", YNull)].
Definition null_claude : dict := [(YStr "claude", YNull)].

(** The binary64 one half, [0x1p-1]: what the parser makes of [0.50];
    and the binary64 one, what it makes of [1.00]. *)
Definition half : spec_float := S754_finite false 4503599627370496 (-53).
Definition one : spec_float := S754_finite false 4503599627370496 (-52).

(** A Claude section with numbers where the defaults are strings. *)
Definition numeric_claude : dict :=
  [ (YStr "max_fix_cycles", YInt 3);
    (YStr "review_budget", YFloat half);
    (YStr "fix_budget", YFloat one) ].

(** The text a value gives its variable: nothing for [None], its [str]
    otherwise, less the NUL bytes. *)
Definition shell_value (v : pyval) : string :=
  match v with
  | YNull => ""
  | _ => Sh.strip_nul (py_str v)
  end.

(** [text.split("\n")]: the lines of a text. *)
Fixpoint split_lines (s : string) : list string :=
  match s with
  | EmptyString => [EmptyString]
  | String c s' =>
      if Ascii.eqb c newline then EmptyString :: split_lines s'
      else match split_lines s' with
           | l :: r => String c l :: r
           | [] => [String c EmptyString]
           end
  end.

(** A name on three lines, the middle one looking like the line that
    counts the jobs; a document with one job of that name. *)
Definition broken_name : string := "a" ++ nl ++ "NUM_JOBS=1" ++ nl ++ "b".

Definition broken_name_job : pyval :=
  YMap [ (YStr "jobs", YSeq [ YMap [ (YStr "name", YStr broken_name) ] ]) ].

(** A name with a NUL byte in it. *)
Definition nul_name : string := "a" ++ String nul "b".

(** The keys the function looks up: in the document, in a job, in the
    Claude configuration. *)
Definition config_keys : list string := ["project"; "jobs"; "claude"].

Definition job_keys : list string :=
  ["name"; "script"; "type"; "array"; "depends_on"; "sbatch_flags"].

Definition claude_keys : list string :=
  ["enabled"; "auto_fix"; "max_fix_cycles"; "review_model"; "fix_model";
   "review_budget"; "fix_budget"].

(** Two mappings that hold the same thing under each of [keys]. *)
Definition agree_on (keys : list string) (d1 d2 : dict) : Prop :=
  forall key, In key keys -> dict_find d1 key = dict_find d2 key.

(** The usage message of the [__main__] block. *)
Definition usage (prog : string) : string :=
  "Usage: " ++ prog ++ " <cluster.yaml>" ++ nl.

(** ** A script of assignments under the shell

    The shell reads the whole output as a script: assignments, one
    after the other, each ended by a newline that is not quoted or by
    the end of the text.  [script_from] goes through the text once,
    being either in the name of a variable or in the word assigned to
    it, with the quoting of [Sh.word], NUL bytes dropped from a word as
    there; an empty line is skipped, and anything that is not an
    assignment gives [None]. *)
Inductive place : Type :=
| InName (n : string)
| InWord (m : Sh.mode) (n v : string).

Definition snoc (s : string) (c : ascii) : string := s ++ String c "".

Definition bound (n v : string) (r : option (list (string * string)))
  : option (list (string * string)) :=
  if Sh.is_name n then
    match r with
    | Some l => Some ((n, v) :: l)
    | None => None
    end
  else None.

Fixpoint script_from (p : place) (s : string)
  : option (list (string * string)) :=
  match s with
  | EmptyString =>
      match p with
      | InName EmptyString => Some []
      | InWord Sh.Bare n v => bound n v (Some [])
      | _ => None
      end
  | String c s' =>
      match p with
      | InName n =>
          if Ascii.eqb c "=" then script_from (InWord Sh.Bare n "") s'
          else if Ascii.eqb c newline then
            match n with
            | EmptyString => script_from (InName "") s'
            | _ => None
            end
          else script_from (InName (snoc n c)) s'
      | InWord Sh.Bare n v =>
          if Ascii.eqb c nul then script_from (InWord Sh.Bare n v) s'
          else if Ascii.eqb c newline then bound n v (script_from (InName "") s')
          else if Ascii.eqb c squote then script_from (InWord Sh.Single n v) s'
          else if Ascii.eqb c dquote then script_from (InWord Sh.Double n v) s'
          else if Sh.meta c then None
          else script_from (InWord Sh.Bare n (snoc v c)) s'
      | InWord Sh.Single n v =>
          if Ascii.eqb c nul then script_from (InWord Sh.Single n v) s'
          else if Ascii.eqb c squote then script_from (InWord Sh.Bare n v) s'
          else script_from (InWord Sh.Single n (snoc v c)) s'
      | InWord Sh.Double n v =>
          if Ascii.eqb c nul then script_from (InWord Sh.Double n v) s'
          else if Ascii.eqb c dquote then script_from (InWord Sh.Bare n v) s'
          else if Ascii.eqb c dollar || Ascii.eqb c backtick
                  || Ascii.eqb c backslash then None
          else script_from (InWord Sh.Double n (snoc v c)) s'
      end
  end.

(** The variables a script sets, in order, with their values. *)
Definition sh_script (s : string) : option (list (string * string)) :=
  script_from (InName "") s.

(** The example document with its keys in another order and two keys
    the function does not know. *)
Definition demo_shuffled : dict :=
  [ (YStr "version", YInt 2);
    (YStr "jobs",
     YSeq [ YMap [ (YStr "name", YStr "simulation");
                   (YStr "script", YStr "submit_gate.sbatch");
                   (YStr "array", YStr "1-10") ] ]);
    (YStr "notes", YStr "nightly run");
    (YStr "project", YMap [(YStr "name", YStr "demo")]) ].

(** A second job that names the first by its number. *)
Definition numbered_dependency : dict :=
  [ (YStr "jobs",
     YSeq [ YMap [(YStr "name", YStr "simulation")];
            YMap [(YStr "name", YStr "merge_results");
                  (YStr "depends_on", YSeq [YInt 0])] ]) ].

(** The variables of a job and of the Claude configuration with the
    values the shell gives them. *)
Definition job_bindings (i : nat) (jd : dict) (joined : string)
  : list (string * string) :=
  [ ("JOB_" ++ str_nat i ++ "_NAME",
     shell_value (dict_get jd "name" (YStr ("job_" ++ str_nat i))));
    ("JOB_" ++ str_nat i ++ "_SCRIPT", shell_value (dict_get jd "script" (YStr "")));
    ("JOB_" ++ str_nat i ++ "_TYPE", shell_value (dict_get jd "type" (YStr "sbatch")));
    ("JOB_" ++ str_nat i ++ "_ARRAY", shell_value (dict_get jd "array" (YStr "")));
    ("JOB_" ++ str_nat i ++ "_DEPENDS_ON", shell_value (YStr joined));
    ("JOB_" ++ str_nat i ++ "_SBATCH_FLAGS",
     shell_value (dict_get jd "sbatch_flags" (YStr ""))) ].

Definition claude_bindings (cd : dict) : list (string * string) :=
  [ ("CLAUDE_ENABLED",
     shell_value (YStr (str_lower (py_str (dict_get cd "enabled" (YBool false))))));
    ("CLAUDE_AUTO_FIX",
     shell_value (YStr (str_lower (py_str (dict_get cd "auto_fix" (YBool false))))));
    ("CLAUDE_MAX_FIX_CYCLES", shell_value (dict_get cd "max_fix_cycles" (YInt 3)));
    ("CLAUDE_REVIEW_MODEL", shell_value (dict_get cd "review_model" (YStr "sonnet")));
    ("CLAUDE_FIX_MODEL", shell_value (dict_get cd "fix_model" (YStr "opus")));
    ("CLAUDE_REVIEW_BUDGET", shell_value (dict_get cd "review_budget" (YStr "0.50")));
    ("CLAUDE_FIX_BUDGET", shell_value (dict_get cd "fix_budget" (YStr "1.00"))) ].

(** A job whose name is written on two lines. *)
Definition two_line_name : pyval :=
  YMap [ (YStr "jobs",
          YSeq [ YMap [ (YStr "name", YStr ("first" ++ nl ++ "NUM_JOBS=7")) ] ]) ].

Definition job_fields : list string :=
  ["_NAME"; "_SCRIPT"; "_TYPE"; "_ARRAY"; "_DEPENDS_ON"; "_SBATCH_FLAGS"].

Definition nonempty (s : string) : bool :=
  match s with EmptyString => false | String _ _ => true end.

(** * Properties *)

(** ** Characters *)

Ltac each_char c :=
  destruct c as [[] [] [] [] [] [] [] []]; vm_compute.

Lemma safe_char_plain (c : ascii) :
  Shlex.safe_char c = true ->
  Sh.meta c = false /\ Ascii.eqb c squote = false /\ Ascii.eqb c dquote = false
  /\ Ascii.eqb c newline = false.
Proof.
  each_char c; intros H; try discriminate H; repeat split.
Qed.

Lemma name_char_not_eq (c : ascii) :
  Sh.name_char c = true -> Ascii.eqb c "=" = false.
Proof.
  each_char c; intros H; try discriminate H; reflexivity.
Qed.

Lemma digit_name_char (c : ascii) : is_digit c = true -> Sh.name_char c = true.
Proof.
  each_char c; intros H; try discriminate H; reflexivity.
Qed.

(** ** The error monad *)

Lemma bind_ok {A B} (r : result A) (k : A -> result B) (b : B) :
  bind r k = Ok b -> exists a, r = Ok a /\ k a = Ok b.
Proof.
  destruct r as [a|e]; simpl; intros H; [eauto | discriminate].
Qed.

Lemma bind_raise {A B} (r : result A) (k : A -> result B) (e : exn) :
  bind r k = Raise e -> r = Raise e \/ exists a, r = Ok a /\ k a = Raise e.
Proof.
  destruct r as [a|e']; simpl; intros H; [right; eauto | left; congruence].
Qed.

Lemma py_get_ok (v : pyval) key dflt x :
  py_get v key dflt = Ok x -> exists d, v = YMap d /\ x = dict_get d key dflt.
Proof.
  destruct v; simpl; intros H; try discriminate H.
  injection H as <-. eauto.
Qed.

(** ** Strings *)

Lemma append_nil_r (s : string) : s ++ "" = s.
Proof. induction s; simpl; congruence. Qed.

Lemma append_assoc (a b c : string) : (a ++ b) ++ c = a ++ b ++ c.
Proof. induction a; simpl; congruence. Qed.

Lemma last_char_app (a b : string) :
  last_char (a ++ b) =
  match last_char b with Some c => Some c | None => last_char a end.
Proof.
  induction a as [|c a IH]; simpl.
  - destruct (last_char b); reflexivity.
  - rewrite IH. destruct (last_char b); reflexivity.
Qed.

Lemma last_char_forall (p : ascii -> bool) (s : string) c :
  str_forall p s = true -> last_char s = Some c -> p c = true.
Proof.
  revert c. induction s as [|a s IH]; simpl; intros c H L; [discriminate|].
  apply andb_prop in H as [Ha Hs].
  destruct (last_char s) as [c'|] eqn:E.
  - injection L as <-. apply IH; auto.
  - injection L as <-. exact Ha.
Qed.

(** ** [shlex.quote] and the shell *)

Lemma safe_char_not_nul (c : ascii) :
  Shlex.safe_char c = true -> Ascii.eqb c nul = false.
Proof. each_char c; intros H; try discriminate H; reflexivity. Qed.

Lemma word_bare_safe (s : string) :
  Shlex.all_safe s = true -> Sh.word Sh.Bare s = Some s.
Proof.
  induction s as [|c s IH]; simpl; intros H; [reflexivity|].
  apply andb_prop in H as [Hc Hs].
  destruct (safe_char_plain c Hc) as (Hm & Hq & Hd & _).
  rewrite (safe_char_not_nul c Hc), Hq, Hd, Hm, (IH Hs). reflexivity.
Qed.

(** A string without NUL bytes loses nothing. *)
Lemma strip_nul_id (s : string) :
  str_contains nul s = false -> Sh.strip_nul s = s.
Proof.
  induction s as [|c s IH]; simpl; intros H; [reflexivity|].
  apply orb_false_elim in H as [Hc Hs]. rewrite Hc, (IH Hs). reflexivity.
Qed.

Lemma all_safe_no_nul (s : string) :
  Shlex.all_safe s = true -> str_contains nul s = false.
Proof.
  induction s as [|c s IH]; simpl; intros H; [reflexivity|].
  apply andb_prop in H as [Hc Hs].
  rewrite (safe_char_not_nul c Hc), (IH Hs). reflexivity.
Qed.

Lemma word_single_replace (s : string) :
  Sh.word Sh.Single
    (str_replace squote Shlex.quoted_squote s ++ String squote "")
  = Some (Sh.strip_nul s).
Proof.
  induction s as [|c s IH]; [reflexivity|].
  cbn [str_replace Sh.strip_nul]. destruct (Ascii.eqb c squote) eqn:E.
  - apply Ascii.eqb_eq in E. subst c.
    rewrite append_assoc. cbn. cbn in IH. rewrite IH. reflexivity.
  - cbn [append Sh.word]. destruct (Ascii.eqb c nul) eqn:N.
    + exact IH.
    + rewrite E. cbn in IH. rewrite IH. reflexivity.
Qed.

(** What the shell makes of a quoted string: the string, less its NUL
    bytes. *)
Lemma word_quote (s : string) :
  Sh.word Sh.Bare (Shlex.quote s) = Some (Sh.strip_nul s).
Proof.
  unfold Shlex.quote.
  destruct (String.eqb s "") eqn:E.
  - apply String.eqb_eq in E. subst s. reflexivity.
  - destruct (Shlex.all_safe s) eqn:S.
    + rewrite (strip_nul_id s (all_safe_no_nul s S)). apply word_bare_safe, S.
    + change (Sh.word Sh.Single
                (str_replace squote Shlex.quoted_squote s ++ String squote "")
              = Some (Sh.strip_nul s)).
      apply word_single_replace.
Qed.

Lemma split_eq_name (n w : string) :
  str_forall Sh.name_char n = true ->
  Sh.split_eq (n ++ String "=" w) = Some (n, w).
Proof.
  induction n as [|c n IH]; simpl; intros H; [reflexivity|].
  apply andb_prop in H as [Hc Hn].
  rewrite (name_char_not_eq c Hc), (IH Hn). reflexivity.
Qed.

Lemma assign_name (n w : string) :
  Sh.is_name n = true ->
  Sh.assign (n ++ "=" ++ w) =
  match Sh.word Sh.Bare w with Some v => Some (n, v) | None => None end.
Proof.
  intros H. unfold Sh.assign.
  assert (str_forall Sh.name_char n = true) as F.
  { destruct n; [discriminate|]. unfold Sh.is_name in H.
    apply andb_prop in H as [_ H]. exact H. }
  change ("=" ++ w) with (String "=" w).
  rewrite (split_eq_name n w F), H. reflexivity.
Qed.

(** C3 (as the code has it). Round trip of the escaping: for every
    string without a NUL byte, the assignment [NAME=] followed by the
    escaped string sets [NAME], under the shell, to that very string,
    whatever other characters it holds (blanks, quotes of both kinds,
    dollars, backquotes, newlines); and [None] escapes to the empty
    text, not to [None] spelled out, so that the variable is set to the
    empty string. *)
Theorem C3_escape_round_trip (name : string) :
  Sh.is_name name = true ->
  (forall s : string,
      str_contains nul s = false ->
      Sh.assign (name ++ "=" ++ shell_escape (YStr s)) = Some (name, s))
  /\ shell_escape YNull = ""
  /\ shell_escape YNull <> "None"
  /\ Sh.assign (name ++ "=" ++ shell_escape YNull) = Some (name, "").
Proof.
  intros H. repeat split.
  - intros s N. rewrite (assign_name name _ H). cbn [shell_escape py_str].
    rewrite word_quote, (strip_nul_id s N). reflexivity.
  - discriminate.
  - rewrite (assign_name name _ H). reflexivity.
Qed.

Lemma C3_escape_round_trip_witness :
  Sh.is_name "JOB_0_NAME" = true
  /\ str_contains nul awkward = false
  /\ Sh.assign ("JOB_0_NAME" ++ "=" ++ shell_escape (YStr awkward))
     = Some ("JOB_0_NAME", awkward).
Proof.
  split; [reflexivity|]. split; [reflexivity|].
  exact (proj1 (C3_escape_round_trip "JOB_0_NAME" eq_refl) awkward eq_refl).
Defined.

(** C3 as stated fails: a string with a NUL byte is escaped, and the
    shell sets the variable to another string. *)
Lemma C3_nul_byte_is_lost :
  Sh.is_name "JOB_0_NAME" = true
  /\ shell_escape (YStr nul_name)
     = String squote (nul_name ++ String squote "")
  /\ Sh.assign ("JOB_0_NAME" ++ "=" ++ shell_escape (YStr nul_name))
     = Some ("JOB_0_NAME", "ab")
  /\ Sh.assign ("JOB_0_NAME" ++ "=" ++ shell_escape (YStr nul_name))
     <> Some ("JOB_0_NAME", nul_name).
Proof.
  repeat split. discriminate.
Qed.

(** ** Which documents the function gets through *)

Lemma is_ok_bind {A B} (r : result A) (k : A -> result B) :
  is_ok (bind r k) = match r with Ok a => is_ok (k a) | Raise _ => false end.
Proof. destruct r; reflexivity. Qed.

Lemma is_ok_true {A} (r : result A) : is_ok r = true -> exists a, r = Ok a.
Proof. destruct r; [eauto | discriminate]. Qed.

Lemma str_items_ok (l : list pyval) : is_ok (str_items l) = all_str l.
Proof.
  induction l as [|v l IH]; [reflexivity|].
  destruct v; try reflexivity. simpl. rewrite is_ok_bind.
  destruct (str_items l); simpl in *; congruence.
Qed.

Lemma str_join_ok (sep : string) (v : pyval) :
  is_ok (str_join sep v) =
  match v with
  | YSeq l => all_str l
  | YMap m => all_str (map fst m)
  | YStr s => all_str (chars s)
  | _ => false
  end.
Proof.
  unfold str_join.
  destruct v; simpl; try reflexivity;
    rewrite is_ok_bind, <- str_items_ok;
    match goal with |- context [str_items ?l] => destruct (str_items l) end;
    reflexivity.
Qed.

Lemma job_lines_map (i : nat) (jd : dict) :
  job_lines i (YMap jd) =
  (depends <- depends_of (YMap jd) ;;
   joined <- str_join "," depends ;;
   Ok [ "JOB_" ++ str_nat i ++ "_NAME="
          ++ shell_escape (dict_get jd "name" (YStr ("job_" ++ str_nat i)));
        "JOB_" ++ str_nat i ++ "_SCRIPT="
          ++ shell_escape (dict_get jd "script" (YStr ""));
        "JOB_" ++ str_nat i ++ "_TYPE="
          ++ shell_escape (dict_get jd "type" (YStr "sbatch"));
        "JOB_" ++ str_nat i ++ "_ARRAY="
          ++ shell_escape (dict_get jd "array" (YStr ""));
        "JOB_" ++ str_nat i ++ "_DEPENDS_ON=" ++ shell_escape (YStr joined);
        "JOB_" ++ str_nat i ++ "_SBATCH_FLAGS="
          ++ shell_escape (dict_get jd "sbatch_flags" (YStr "")) ]).
Proof. reflexivity. Qed.

Lemma job_lines_ok (i : nat) (job : pyval) :
  is_ok (job_lines i job) = valid_job job.
Proof.
  destruct job; try reflexivity.
  rewrite job_lines_map. unfold depends_of, valid_job. simpl.
  rewrite is_ok_bind.
  destruct (dict_get d "depends_on" (YSeq [])) eqn:E; simpl; try reflexivity.
  - destruct (str_join "," (YSeq l)) eqn:J;
      pose proof (str_join_ok "," (YSeq l)) as K; rewrite J in K; exact K.
  - destruct (str_join "," (YMap d0)) eqn:J;
      pose proof (str_join_ok "," (YMap d0)) as K; rewrite J in K; exact K.
Qed.

Lemma jobs_loop_ok (l : list pyval) (i : nat) :
  is_ok (jobs_loop i l) = forallb valid_job l.
Proof.
  revert i. induction l as [|job l IH]; intros i; [reflexivity|].
  simpl. rewrite is_ok_bind, <- (job_lines_ok i job).
  destruct (job_lines i job); [|reflexivity].
  simpl. rewrite is_ok_bind, <- (IH (S i)).
  destruct (jobs_loop (S i) l); reflexivity.
Qed.

Lemma jobs_lines_ok (d : dict) :
  is_ok (jobs_lines (YMap d)) = valid_jobs (dict_get d "jobs" (YSeq [])).
Proof.
  unfold jobs_lines. simpl.
  destruct (dict_get d "jobs" (YSeq [])); simpl; try reflexivity;
    rewrite is_ok_bind, <- (jobs_loop_ok _ 0);
    match goal with |- context [jobs_loop 0 ?l] => destruct (jobs_loop 0 l) end;
    reflexivity.
Qed.

Lemma project_lines_ok (d : dict) :
  is_ok (project_lines (YMap d)) = valid_project (dict_get d "project" (YMap [])).
Proof.
  unfold project_lines, valid_project. simpl.
  destruct (py_truthy (dict_get d "project" (YMap []))); [|reflexivity].
  destruct (dict_get d "project" (YMap [])); reflexivity.
Qed.

Lemma claude_lines_ok (claude : pyval) :
  is_ok (claude_lines claude) = is_map claude.
Proof. destruct claude; reflexivity. Qed.

(** The function returns on the valid documents, and on those only. *)
Lemma config_lines_ok (config : pyval) :
  is_ok (config_lines config) = valid_config config.
Proof.
  destruct config; try reflexivity.
  unfold config_lines, valid_config.
  rewrite is_ok_bind, <- project_lines_ok.
  destruct (project_lines (YMap d)); [|reflexivity].
  rewrite is_ok_bind, <- jobs_lines_ok.
  destruct (jobs_lines (YMap d)); [|reflexivity].
  simpl. rewrite is_ok_bind, <- claude_lines_ok.
  destruct (claude_lines (dict_get d "claude" (YMap []))); reflexivity.
Qed.

Lemma flatten_ok (config : pyval) : is_ok (flatten config) = valid_config config.
Proof.
  rewrite <- config_lines_ok. unfold flatten, fmap.
  destruct (config_lines config); reflexivity.
Qed.

(** ** Which exceptions the function raises *)

Lemma ru_ok {A} (a : A) : raises_unhandled (Ok a).
Proof. intros e H. discriminate H. Qed.

Lemma ru_bind {A B} (r : result A) (k : A -> result B) :
  raises_unhandled r -> (forall a, raises_unhandled (k a)) ->
  raises_unhandled (bind r k).
Proof.
  intros Hr Hk e H. apply bind_raise in H as [H | (a & _ & H)].
  - apply Hr, H.
  - apply (Hk a), H.
Qed.

Lemma ru_py_get v key dflt : raises_unhandled (py_get v key dflt).
Proof. destruct v; intros e H; inversion H; left; reflexivity. Qed.

Lemma ru_py_len v : raises_unhandled (py_len v).
Proof. destruct v; intros e H; inversion H; right; reflexivity. Qed.

Lemma ru_py_iter v : raises_unhandled (py_iter v).
Proof. destruct v; intros e H; inversion H; right; reflexivity. Qed.

Lemma ru_str_items l : raises_unhandled (str_items l).
Proof.
  induction l as [|v l IH]; [apply ru_ok|].
  destruct v; simpl; try (intros e H; inversion H; right; reflexivity).
  apply ru_bind; [exact IH | intros; apply ru_ok].
Qed.

Ltac ru_step :=
  first [ apply ru_ok | apply ru_py_get | apply ru_py_len | apply ru_py_iter
        | apply ru_str_items | apply ru_bind; [|intros] ].

Lemma ru_str_join sep v : raises_unhandled (str_join sep v).
Proof. unfold str_join. repeat ru_step. Qed.

Lemma ru_job_lines i job : raises_unhandled (job_lines i job).
Proof.
  unfold job_lines, depends_of.
  repeat (first [ apply ru_str_join | ru_step ]).
Qed.

Lemma ru_jobs_loop l i : raises_unhandled (jobs_loop i l).
Proof.
  revert i. induction l as [|job l IH]; intros i; simpl; [apply ru_ok|].
  apply ru_bind; [apply ru_job_lines | intros].
  apply ru_bind; [apply IH | intros; apply ru_ok].
Qed.

Lemma ru_config_lines config : raises_unhandled (config_lines config).
Proof.
  unfold config_lines, project_lines, jobs_lines, claude_lines, flag.
  repeat (first [ apply ru_jobs_loop | ru_step ]).
  destruct (py_truthy _); repeat ru_step.
Qed.

Lemma flatten_raise (config : pyval) (e : exn) :
  flatten config = Raise e -> config_lines config = Raise e /\ unhandled e.
Proof.
  unfold flatten, fmap. intros H.
  apply bind_raise in H as [H | (a & _ & H)]; [|discriminate].
  split; [exact H | apply (ru_config_lines config), H].
Qed.

(** ** Decimal indices *)

Lemma to_uint_nonnil (n : nat) : Nat.to_uint n <> Decimal.Nil.
Proof.
  rewrite <- (DecimalNat.Unsigned.of_to n) at 1.
  rewrite DecimalNat.Unsigned.to_of. apply DecimalFacts.unorm_nonnil.
Qed.

Lemma digits_string_of_uint (d : Decimal.uint) :
  str_forall is_digit (NilEmpty.string_of_uint d) = true.
Proof. induction d; simpl; auto. Qed.

Lemma digits_str_nat (n : nat) : str_forall is_digit (str_nat n) = true.
Proof.
  unfold str_nat, NilZero.string_of_uint.
  destruct (Nat.to_uint n) eqn:E; try (rewrite <- E; apply digits_string_of_uint).
  reflexivity.
Qed.

(** Reading the decimal rendering of [n] gives [n] back. *)
Lemma read_str_nat (n : nat) :
  option_map Nat.of_uint (NilZero.uint_of_string (str_nat n)) = Some n.
Proof.
  unfold str_nat. rewrite NilZero.usu by apply to_uint_nonnil.
  simpl. rewrite DecimalNat.Unsigned.of_to. reflexivity.
Qed.

Lemma take_digits_app (ds r : string) :
  str_forall is_digit ds = true ->
  take_digits (ds ++ String "_" r) = (ds, String "_" r).
Proof.
  induction ds as [|c ds IH]; simpl; intros H; [reflexivity|].
  apply andb_prop in H as [Hc Hds]. rewrite Hc, (IH Hds). reflexivity.
Qed.

Lemma job_index_line (k : nat) (rest : string) :
  job_index ("JOB_" ++ str_nat k ++ String "_" rest) = Some k.
Proof.
  unfold job_index. cbn [append strip_prefix Ascii.eqb Bool.eqb].
  rewrite (take_digits_app _ _ (digits_str_nat k)).
  cbn [starts_with Ascii.eqb Bool.eqb andb]. apply read_str_nat.
Qed.

(** ** The shape of the list of lines *)

Lemma starts_with_app (p x : string) : starts_with p (p ++ x) = true.
Proof.
  induction p as [|c p IH]; [reflexivity|].
  simpl. rewrite Ascii.eqb_refl. exact IH.
Qed.

Lemma starts_with_cancel (a p s : string) :
  starts_with (a ++ p) (a ++ s) = starts_with p s.
Proof.
  induction a as [|c a IH]; [reflexivity|].
  simpl. rewrite Ascii.eqb_refl. exact IH.
Qed.

Lemma job_var_line (i : nat) (field x : string) :
  starts_with ("JOB_" ++ str_nat i ++ field) ("JOB_" ++ str_nat i ++ field ++ x)
  = true.
Proof. rewrite !starts_with_cancel. apply starts_with_app. Qed.

Lemma job_lines_six (i : nat) (job : pyval) (ls : list string) :
  job_lines i job = Ok ls ->
  exists jd depends joined,
    job = YMap jd /\ depends_of job = Ok depends
    /\ str_join "," depends = Ok joined /\ ls = six_lines i jd joined.
Proof.
  intros H. destruct job; try discriminate H.
  rewrite job_lines_map in H.
  apply bind_ok in H as (depends & Hd & H).
  apply bind_ok in H as (joined & Hj & H).
  injection H as <-. exists d, depends, joined. auto.
Qed.

Lemma job_lines_joined (i : nat) (jd : dict) (depends : pyval) (joined : string) :
  depends_of (YMap jd) = Ok depends ->
  str_join "," depends = Ok joined ->
  job_lines i (YMap jd) = Ok (six_lines i jd joined).
Proof.
  intros D J. rewrite job_lines_map, D. cbn [bind]. rewrite J. reflexivity.
Qed.

Lemma six_lines_assigns (i : nat) jd joined :
  assigns (job_vars i) (six_lines i jd joined).
Proof.
  unfold assigns, job_vars, six_lines. simpl map.
  repeat (constructor; [apply job_var_line|]). constructor.
Qed.

Lemma six_lines_index (i : nat) jd joined :
  Forall (fun l => job_index l = Some i) (six_lines i jd joined).
Proof.
  unfold six_lines.
  repeat (constructor; [apply job_index_line|]). constructor.
Qed.

Lemma six_lines_head (i : nat) jd joined :
  Forall (fun l => starts_with "JOB_" l = true) (six_lines i jd joined).
Proof. unfold six_lines. repeat (constructor; [reflexivity|]). constructor. Qed.

Lemma jobs_loop_length (l : list pyval) (i : nat) (J : list string) :
  jobs_loop i l = Ok J -> List.length J = 6 * List.length l.
Proof.
  revert i J. induction l as [|job l IH]; simpl; intros i J H.
  - injection H as <-. reflexivity.
  - apply bind_ok in H as (ls & Hl & H).
    apply bind_ok in H as (more & Hm & H). injection H as <-.
    apply job_lines_six in Hl as (jd & dep & jn & _ & _ & _ & ->).
    rewrite length_app, (IH _ _ Hm). simpl. lia.
Qed.

Lemma jobs_loop_head (l : list pyval) (i : nat) (J : list string) :
  jobs_loop i l = Ok J -> Forall (fun s => starts_with "JOB_" s = true) J.
Proof.
  revert i J. induction l as [|job l IH]; simpl; intros i J H.
  - injection H as <-. constructor.
  - apply bind_ok in H as (ls & Hl & H).
    apply bind_ok in H as (more & Hm & H). injection H as <-.
    apply job_lines_six in Hl as (jd & dep & jn & _ & _ & _ & ->).
    apply Forall_app. split; [apply six_lines_head | apply (IH _ _ Hm)].
Qed.

(** The job at position [k] accounts for the [k]-th group of six lines,
    and these are the lines of the loop body run with the index
    [i + k]. *)
Lemma jobs_loop_block (l : list pyval) (i : nat) (J : list string) :
  jobs_loop i l = Ok J ->
  forall k job, nth_error l k = Some job ->
    job_lines (i + k) job = Ok (firstn 6 (skipn (6 * k) J)).
Proof.
  revert i J. induction l as [|job0 l IH]; cbn [jobs_loop]; intros i J H k job Hk.
  - destruct k; discriminate Hk.
  - apply bind_ok in H as (ls & Hl & H).
    apply bind_ok in H as (more & Hm & H). injection H as <-.
    pose proof Hl as Hl'.
    apply job_lines_six in Hl' as (jd & dep & jn & _ & _ & _ & E).
    assert (List.length ls = 6) as L by (rewrite E; reflexivity).
    destruct k as [|k].
    + injection Hk as <-. rewrite Nat.add_0_r, Nat.mul_0_r. cbn [skipn].
      rewrite <- L, firstn_app, Nat.sub_diag, firstn_all, firstn_O, app_nil_r.
      exact Hl.
    + simpl in Hk. replace (i + S k) with (S i + k) by lia.
      rewrite (IH _ _ Hm k job Hk).
      replace (6 * S k) with (List.length ls + 6 * k) by lia.
      rewrite skipn_app, (skipn_all2 ls) by lia.
      replace (List.length ls + 6 * k - List.length ls) with (6 * k) by lia.
      reflexivity.
Qed.

Lemma py_len_iter (v : pyval) (n : nat) (l : list pyval) :
  py_len v = Ok n -> py_iter v = Ok l -> List.length l = n.
Proof.
  destruct v; simpl; intros Hn Hl; try discriminate;
    injection Hn as <-; injection Hl as <-.
  - induction s; simpl; congruence.
  - reflexivity.
  - apply length_map.
Qed.

Lemma claude_lines_map (cd : dict) :
  claude_lines (YMap cd) = Ok (seven_lines cd).
Proof. reflexivity. Qed.

Lemma claude_lines_seven (claude : pyval) (c : list string) :
  claude_lines claude = Ok c -> exists cd, claude = YMap cd /\ c = seven_lines cd.
Proof.
  destruct claude; intros H; try discriminate H.
  rewrite claude_lines_map in H. injection H as <-. eauto.
Qed.

Lemma seven_lines_assigns (cd : dict) : assigns claude_vars (seven_lines cd).
Proof.
  unfold assigns, claude_vars, seven_lines.
  repeat (constructor; [reflexivity|]). constructor.
Qed.

Lemma project_lines_cases (d : dict) (p : list string) :
  project_lines (YMap d) = Ok p ->
  match dict_get d "project" (YMap []) with
  | YMap (kv :: r) =>
      p = ["PROJECT_NAME=" ++ shell_escape (dict_get (kv :: r) "name" (YStr ""))]
  | project => py_truthy project = false /\ p = []
  end.
Proof.
  unfold project_lines. simpl.
  destruct (dict_get d "project" (YMap [])) as [ | b | z | f | s | l | m ] eqn:E;
    simpl.
  - intros H. injection H as <-. auto.
  - destruct b; simpl; intros H; [discriminate | injection H as <-; auto].
  - destruct (negb (z =? 0)%Z); simpl; intros H;
      [discriminate | injection H as <-; auto].
  - destruct f; simpl; intros H; try discriminate; injection H as <-; auto.
  - destruct (negb (s =? "")); simpl; intros H;
      [discriminate | injection H as <-; auto].
  - destruct l; simpl; intros H; [injection H as <-; auto | discriminate].
  - destruct m; simpl; intros H; injection H as <-; auto.
Qed.

(** What a successful run has put in [lines]. *)
Lemma config_lines_shape (d : dict) (ls : list string) :
  config_lines (YMap d) = Ok ls ->
  exists p n jobs J cd,
    project_lines (YMap d) = Ok p
    /\ py_len (dict_get d "jobs" (YSeq [])) = Ok n
    /\ py_iter (dict_get d "jobs" (YSeq [])) = Ok jobs
    /\ List.length jobs = n
    /\ jobs_loop 0 jobs = Ok J
    /\ dict_get d "claude" (YMap []) = YMap cd
    /\ ls = (p ++ ("NUM_JOBS=" ++ str_nat n)%string :: J ++ seven_lines cd)%list.
Proof.
  unfold config_lines. intros H.
  apply bind_ok in H as (p & Hp & H).
  apply bind_ok in H as (j & Hj & H).
  apply bind_ok in H as (claude & Hc & H).
  apply bind_ok in H as (c & Hcl & H). injection H as <-.
  unfold jobs_lines in Hj.
  apply bind_ok in Hj as (jobs & Hjobs & Hj).
  apply bind_ok in Hj as (n & Hn & Hj).
  apply bind_ok in Hj as (elems & He & Hj).
  apply bind_ok in Hj as (J & HJ & Hj). injection Hj as <-.
  simpl in Hjobs, Hc. injection Hjobs as <-. injection Hc as <-.
  apply claude_lines_seven in Hcl as (cd & Hcd & ->).
  exists p, n, elems, J, cd. repeat split; auto.
  apply (py_len_iter _ _ _ Hn He).
Qed.

(** ** Selecting lines by the variable they assign *)

Lemma lines_of_all (p : string) (ls : list string) :
  Forall (fun l => starts_with p l = true) ls -> lines_of p ls = ls.
Proof.
  induction 1 as [|l ls H _ IH]; [reflexivity|].
  unfold lines_of in *. simpl. rewrite H, IH. reflexivity.
Qed.

Lemma lines_of_none (p : string) (ls : list string) :
  Forall (fun l => starts_with p l = false) ls -> lines_of p ls = [].
Proof.
  induction 1 as [|l ls H _ IH]; [reflexivity|].
  unfold lines_of in *. simpl. rewrite H, IH. reflexivity.
Qed.

Lemma lines_of_app (p : string) (a b : list string) :
  lines_of p (a ++ b)%list = (lines_of p a ++ lines_of p b)%list.
Proof. apply filter_app. Qed.

(** Two names that differ in their first character do not start the
    same line. *)
Lemma first_char_clash (a b : ascii) (p q l : string) :
  Ascii.eqb a b = false ->
  starts_with (String a p) l = true -> starts_with (String b q) l = false.
Proof.
  intros N. destruct l as [|c l]; simpl; [discriminate|].
  destruct (Ascii.eqb a c) eqn:E; [|discriminate].
  apply Ascii.eqb_eq in E. subst c. intros _.
  destruct (Ascii.eqb b a) eqn:F; [|reflexivity].
  apply Ascii.eqb_eq in F. subst b. rewrite Ascii.eqb_refl in N. discriminate.
Qed.

Lemma lines_of_clash (a b : ascii) (p q : string) (ls : list string) :
  Ascii.eqb a b = false ->
  Forall (fun l => starts_with (String a p) l = true) ls ->
  lines_of (String b q) ls = [].
Proof.
  intros N H. apply lines_of_none.
  eapply Forall_impl; [|exact H].
  intros l. apply first_char_clash, N.
Qed.

Lemma seven_lines_head (cd : dict) :
  Forall (fun l => starts_with "CLAUDE_" l = true) (seven_lines cd).
Proof. unfold seven_lines. repeat (constructor; [reflexivity|]). constructor. Qed.

(** ** The end of the text *)

Lemma quote_last (s : string) : last_char (Shlex.quote s) <> Some newline.
Proof.
  unfold Shlex.quote. destruct (String.eqb s ""); [discriminate|].
  destruct (Shlex.all_safe s) eqn:S.
  - intros L. pose proof (last_char_forall _ _ _ S L) as C. discriminate C.
  - cbn [last_char]. rewrite last_char_app. discriminate.
Qed.

Lemma shell_escape_last (v : pyval) : last_char (shell_escape v) <> Some newline.
Proof. destruct v; try apply quote_last. discriminate. Qed.

Lemma concat_last (sep : string) (pre : list string) (x : string) (c : ascii) :
  last_char x = Some c -> last_char (String.concat sep (pre ++ [x])) = Some c.
Proof.
  intros L. induction pre as [|a pre IH]; [exact L|].
  change ((a :: pre) ++ [x])%list with (a :: (pre ++ [x]))%list.
  destruct (pre ++ [x])%list as [|b r] eqn:E.
  - destruct pre; discriminate E.
  - cbn [String.concat]. rewrite !last_char_app.
    cbn [String.concat] in IH. rewrite IH. reflexivity.
Qed.

Lemma seven_lines_last (cd : dict) :
  exists front x c,
    seven_lines cd = (front ++ [x])%list /\ last_char x = Some c /\ c <> newline.
Proof.
  unfold seven_lines.
  set (tok := shell_escape (dict_get cd "fix_budget" (YStr "1.00"))).
  pose proof (shell_escape_last (dict_get cd "fix_budget" (YStr "1.00"))) as T.
  fold tok in T.
  eexists (_ :: _ :: _ :: _ :: _ :: _ :: nil), ("CLAUDE_FIX_BUDGET=" ++ tok).
  destruct (last_char tok) as [c|] eqn:L.
  - exists c. split; [reflexivity|]. rewrite last_char_app, L.
    split; [reflexivity | congruence].
  - exists "="%char. split; [reflexivity|]. rewrite last_char_app, L.
    split; [reflexivity | discriminate].
Qed.

Lemma project_lines_head (d : dict) (p : list string) :
  project_lines (YMap d) = Ok p ->
  (p = [] \/ exists x, p = ["PROJECT_NAME=" ++ x])
  /\ Forall (fun l => starts_with "PROJECT_NAME=" l = true) p.
Proof.
  intros Hp. apply project_lines_cases in Hp.
  destruct (dict_get d "project" (YMap [])) as [ | | | | | | [|kv r]].
  1-7: destruct Hp as [_ ->]; split; [left; reflexivity | constructor].
  subst p. split; [right; eauto | repeat constructor].
Qed.

(** Each kind of line is found again by the name it starts with. *)
Lemma config_lines_select (d : dict) (ls : list string) :
  config_lines (YMap d) = Ok ls ->
  exists p n jobs J cd,
    project_lines (YMap d) = Ok p
    /\ py_len (dict_get d "jobs" (YSeq [])) = Ok n
    /\ py_iter (dict_get d "jobs" (YSeq [])) = Ok jobs
    /\ List.length jobs = n
    /\ jobs_loop 0 jobs = Ok J
    /\ dict_get d "claude" (YMap []) = YMap cd
    /\ ls = (p ++ ("NUM_JOBS=" ++ str_nat n)%string :: J ++ seven_lines cd)%list
    /\ lines_of "PROJECT_NAME=" ls = p
    /\ lines_of "NUM_JOBS=" ls = ["NUM_JOBS=" ++ str_nat n]
    /\ lines_of "JOB_" ls = J
    /\ lines_of "CLAUDE_" ls = seven_lines cd.
Proof.
  intros Hls.
  pose proof (config_lines_shape d ls Hls)
    as (p & n & jobs & J & cd & Hp & Hn & Hit & Hlen & HJ & Hcd & E).
  pose proof (jobs_loop_head _ _ _ HJ) as JH.
  pose proof (seven_lines_head cd) as CH.
  pose proof (project_lines_head d p Hp) as [_ PH].
  exists p, n, jobs, J, cd.
  repeat (split; [assumption|]).
  rewrite E. change (?x :: ?l ++ ?r)%list with ([x] ++ l ++ r)%list.
  rewrite !lines_of_app.
  rewrite (lines_of_all _ _ PH), (lines_of_all _ _ JH), (lines_of_all _ _ CH).
  rewrite (lines_of_clash "J" "P" "OB_" "ROJECT_NAME=" _ eq_refl JH).
  rewrite (lines_of_clash "C" "P" "LAUDE_" "ROJECT_NAME=" _ eq_refl CH).
  rewrite (lines_of_clash "P" "N" "ROJECT_NAME=" "UM_JOBS=" _ eq_refl PH).
  rewrite (lines_of_clash "J" "N" "OB_" "UM_JOBS=" _ eq_refl JH).
  rewrite (lines_of_clash "C" "N" "LAUDE_" "UM_JOBS=" _ eq_refl CH).
  rewrite (lines_of_clash "P" "J" "ROJECT_NAME=" "OB_" _ eq_refl PH).
  rewrite (lines_of_clash "C" "J" "LAUDE_" "OB_" _ eq_refl CH).
  rewrite (lines_of_clash "P" "C" "ROJECT_NAME=" "LAUDE_" _ eq_refl PH).
  rewrite (lines_of_clash "J" "C" "OB_" "LAUDE_" _ eq_refl JH).
  cbn. rewrite !app_nil_r. auto.
Qed.

Lemma valid_config_lines (config : pyval) :
  valid_config config = true ->
  exists d ls, config = YMap d /\ config_lines (YMap d) = Ok ls.
Proof.
  intros V. pose proof V as V'.
  rewrite <- config_lines_ok in V'. apply is_ok_true in V' as (ls & Hls).
  destruct config as [ | | | | | | d]; try discriminate V. eauto.
Qed.

(** The lines of a text made of entries without newline. *)
Lemma split_lines_plain (a : string) :
  str_contains newline a = false -> split_lines a = [a].
Proof.
  induction a as [|c a IH]; cbn [str_contains split_lines]; intros H;
    [reflexivity|].
  apply orb_false_elim in H as [Hc Ha]. rewrite Hc, (IH Ha). reflexivity.
Qed.

Lemma split_lines_newline (a rest : string) :
  str_contains newline a = false ->
  split_lines (a ++ String newline rest) = a :: split_lines rest.
Proof.
  induction a as [|c a IH]; cbn [str_contains append split_lines]; intros H.
  - rewrite Ascii.eqb_refl. reflexivity.
  - apply orb_false_elim in H as [Hc Ha]. rewrite Hc, (IH Ha). reflexivity.
Qed.

Lemma split_lines_concat (ls : list string) :
  ls <> [] ->
  Forall (fun l => str_contains newline l = false) ls ->
  split_lines (String.concat nl ls) = ls.
Proof.
  intros N F. induction F as [|x ls Hx F IH]; [contradiction N; reflexivity|].
  destruct ls as [|y r].
  - apply split_lines_plain, Hx.
  - change (String.concat nl (x :: y :: r))
      with (x ++ String newline (String.concat nl (y :: r))).
    rewrite (split_lines_newline _ _ Hx), IH by discriminate. reflexivity.
Qed.

Lemma str_contains_app (c : ascii) (a b : string) :
  str_contains c (a ++ b) = str_contains c a || str_contains c b.
Proof.
  induction a as [|x a IH]; [reflexivity|].
  cbn [append str_contains]. rewrite IH. apply orb_assoc.
Qed.

(** Quoting adds no newline and takes none away. *)
Lemma quote_newline (s : string) :
  str_contains newline (Shlex.quote s) = str_contains newline s.
Proof.
  unfold Shlex.quote. destruct (String.eqb s "") eqn:E.
  - apply String.eqb_eq in E. subst s. reflexivity.
  - destruct (Shlex.all_safe s); [reflexivity|].
    cbn [str_contains]. rewrite str_contains_app. cbn.
    rewrite orb_false_r. clear E.
    induction s as [|c s IH]; [reflexivity|].
    cbn [str_replace]. rewrite str_contains_app, IH.
    destruct (Ascii.eqb c squote) eqn:Q.
    + apply Ascii.eqb_eq in Q. subst c. reflexivity.
    + cbn. rewrite orb_false_r. reflexivity.
Qed.

(** C4 (as the code has it). Shape of the output: a valid document
    with [n] jobs makes the function build a list of lines with at most
    one [PROJECT_NAME] entry, then exactly one [NUM_JOBS] entry that
    reads [NUM_JOBS=n] (for [n = 0] too), then [6 * n] job entries, six
    a job, assigning [JOB_i_NAME], [JOB_i_SCRIPT], [JOB_i_TYPE],
    [JOB_i_ARRAY], [JOB_i_DEPENDS_ON] and [JOB_i_SBATCH_FLAGS], then the
    seven [CLAUDE_] entries; the text returned is these entries with a
    newline between them, and it does not end with a newline.  When no
    entry holds a newline, which is when no value does, the lines of
    the text are these entries. *)
Theorem C4_output_shape (config : pyval) :
  valid_config config = true ->
  renders config = true ->
  exists d n p J c ls,
    config = YMap d
    /\ py_len (dict_get d "jobs" (YSeq [])) = Ok n
    /\ config_lines config = Ok ls
    /\ ls = (p ++ ("NUM_JOBS=" ++ str_nat n)%string :: J ++ c)%list
    /\ (p = [] \/ exists x, p = ["PROJECT_NAME=" ++ x])
    /\ lines_of "PROJECT_NAME=" ls = p
    /\ lines_of "NUM_JOBS=" ls = ["NUM_JOBS=" ++ str_nat n]
    /\ lines_of "JOB_" ls = J
    /\ List.length J = 6 * n
    /\ (forall i, i < n -> assigns (job_vars i) (firstn 6 (skipn (6 * i) J)))
    /\ lines_of "CLAUDE_" ls = c
    /\ assigns claude_vars c
    /\ List.length ls = List.length p + 1 + 6 * n + 7
    /\ flatten config = Ok (String.concat nl ls)
    /\ last_char (String.concat nl ls) <> Some newline
    /\ (Forall (fun l => str_contains newline l = false) ls ->
        split_lines (String.concat nl ls) = ls)
    /\ (forall v : pyval,
           v <> YNull ->
           str_contains newline (shell_escape v)
           = str_contains newline (py_str v)).
Proof.
  intros V _. destruct (valid_config_lines config V) as (d & ls & -> & Hls).
  pose proof (config_lines_select d ls Hls)
    as (p & n & jobs & J & cd & Hp & Hn & Hit & Hlen & HJ & Hcd & E
        & SP & SN & SJ & SC).
  exists d, n, p, J, (seven_lines cd), ls.
  split; [reflexivity|]. split; [exact Hn|]. split; [exact Hls|].
  split; [exact E|].
  split; [apply (project_lines_head d p Hp)|].
  split; [exact SP|]. split; [exact SN|]. split; [exact SJ|].
  split; [rewrite (jobs_loop_length _ _ _ HJ), Hlen; reflexivity|].
  split.
  { intros i Hi. rewrite <- Hlen in Hi.
    destruct (nth_error jobs i) as [job|] eqn:Hjob;
      [|apply nth_error_None in Hjob; lia].
    pose proof (jobs_loop_block _ _ _ HJ i job Hjob) as B.
    rewrite Nat.add_0_l in B.
    apply job_lines_six in B as (jd & dep & jn & _ & _ & _ & ->).
    apply six_lines_assigns. }
  split; [exact SC|].
  split; [apply seven_lines_assigns|].
  split.
  { rewrite E, length_app. cbn [List.length]. rewrite length_app.
    rewrite (jobs_loop_length _ _ _ HJ), Hlen. simpl. lia. }
  split; [unfold flatten, fmap; rewrite Hls; reflexivity|].
  split.
  { destruct (seven_lines_last cd) as (front & x & c & Ec & Lc & Nc).
    rewrite E, Ec.
    replace (p ++ ("NUM_JOBS=" ++ str_nat n)%string :: J ++ front ++ [x])%list
      with ((p ++ ("NUM_JOBS=" ++ str_nat n)%string :: J ++ front) ++ [x])%list.
    - rewrite (concat_last _ _ _ _ Lc). congruence.
    - rewrite <- app_assoc. cbn [app]. rewrite <- app_assoc. reflexivity. }
  split.
  { apply split_lines_concat. rewrite E. destruct p; discriminate. }
  intros v N. destruct v; try apply quote_newline. contradiction N. reflexivity.
Qed.

Lemma C4_output_shape_witness :
  valid_config demo = true
  /\ renders demo = true
  /\ exists n p J c,
       config_lines demo
       = Ok (p ++ ("NUM_JOBS=" ++ str_nat n)%string :: J ++ c)%list
       /\ List.length J = 6 * n
       /\ assigns claude_vars c.
Proof.
  split; [reflexivity|]. split; [reflexivity|].
  destruct (C4_output_shape demo eq_refl eq_refl)
    as (d & n & p & J & c & ls & _ & _ & Hls & E & _ & _ & _ & _ & HJ & _ & _
        & Hc & _).
  exists n, p, J, c. rewrite <- E. auto.
Defined.

(** C4 as stated fails: the document is valid, with one job, and the
    text returned has more lines than one, six and seven, two of them
    reading [NUM_JOBS=1]. *)
Lemma C4_value_with_newlines :
  valid_config broken_name_job = true
  /\ renders broken_name_job = true
  /\ exists ls text,
       config_lines broken_name_job = Ok ls
       /\ flatten broken_name_job = Ok text
       /\ List.length ls = 1 + 6 * 1 + 7
       /\ List.length (split_lines text) = 16
       /\ filter (String.eqb "NUM_JOBS=1") (split_lines text)
          = ["NUM_JOBS=1"; "NUM_JOBS=1"].
Proof.
  split; [reflexivity|]. split; [reflexivity|].
  eexists. eexists. split; [reflexivity|]. split; [reflexivity|].
  repeat split.
Qed.

(** C5. The index in a job's variable names is the job's position: in
    the output of a valid document the [k]-th group of six job lines is
    what the loop body produces from the [k]-th element of [jobs] with
    index [k], its variables are the [JOB_k_] ones and the number
    written in each of them reads [k]; with six lines for each of the
    jobs and no other [JOB_] line in the output, no job is moved,
    dropped or merged. *)
Theorem C5_index_is_position (config : pyval) :
  valid_config config = true ->
  exists d jobs p J c ls,
    config = YMap d
    /\ py_iter (dict_get d "jobs" (YSeq [])) = Ok jobs
    /\ config_lines config = Ok ls
    /\ ls = (p ++ ("NUM_JOBS=" ++ str_nat (List.length jobs))%string :: J ++ c)%list
    /\ lines_of "JOB_" ls = J
    /\ List.length J = 6 * List.length jobs
    /\ forall k job, nth_error jobs k = Some job ->
         let block := firstn 6 (skipn (6 * k) J) in
         job_lines k job = Ok block
         /\ assigns (job_vars k) block
         /\ Forall (fun line => job_index line = Some k) block.
Proof.
  intros V. destruct (valid_config_lines config V) as (d & ls & -> & Hls).
  pose proof (config_lines_select d ls Hls)
    as (p & n & jobs & J & cd & Hp & Hn & Hit & Hlen & HJ & Hcd & E
        & SP & SN & SJ & SC).
  exists d, jobs, p, J, (seven_lines cd), ls.
  split; [reflexivity|]. split; [exact Hit|]. split; [exact Hls|].
  split; [rewrite Hlen; exact E|]. split; [exact SJ|].
  split; [apply (jobs_loop_length _ _ _ HJ)|].
  intros k job Hjob block.
  pose proof (jobs_loop_block _ _ _ HJ k job Hjob) as B.
  rewrite Nat.add_0_l in B. fold block in B.
  split; [exact B|].
  apply job_lines_six in B as (jd & dep & jn & _ & _ & _ & ->).
  split; [apply six_lines_assigns | apply six_lines_index].
Qed.

Lemma C5_index_is_position_witness :
  valid_config two_jobs = true
  /\ exists J ls,
       config_lines two_jobs = Ok ls
       /\ lines_of "JOB_" ls = J
       /\ Forall (fun line => job_index line = Some 1) (firstn 6 (skipn 6 J)).
Proof.
  split; [reflexivity|].
  destruct (C5_index_is_position two_jobs eq_refl)
    as (d & jobs & p & J & c & ls & Ed & Hit & Hls & _ & HJ & _ & Hk).
  injection Ed as <-. injection Hit as <-.
  exists J, ls. split; [exact Hls|]. split; [exact HJ|].
  exact (proj2 (proj2 (Hk 1 _ eq_refl))).
Defined.

(** C1 (as the code has it). The [PROJECT_NAME] line goes by the truth
    value of the project section, not by its presence: a valid document
    whose [project] is a mapping with at least one key starts with the
    line [PROJECT_NAME=] followed by the escaped name (the empty string
    when there is no [name]), and has no other such line; a document
    without [project], or with an empty or null one, has no
    [PROJECT_NAME] line at all. *)
Theorem C1_project_name_gate (config : pyval) :
  valid_config config = true ->
  exists d ls,
    config = YMap d /\ config_lines config = Ok ls
    /\ match dict_find d "project" with
       | Some (YMap (kv :: r)) =>
           let line := "PROJECT_NAME="
                       ++ shell_escape (dict_get (kv :: r) "name" (YStr "")) in
           hd_error ls = Some line /\ lines_of "PROJECT_NAME=" ls = [line]
       | _ => lines_of "PROJECT_NAME=" ls = []
       end.
Proof.
  intros V. destruct (valid_config_lines config V) as (d & ls & -> & Hls).
  pose proof (config_lines_select d ls Hls)
    as (p & n & jobs & J & cd & Hp & _ & _ & _ & _ & _ & E & SP & _).
  exists d, ls. split; [reflexivity|]. split; [exact Hls|].
  apply project_lines_cases in Hp. unfold dict_get in Hp at 1.
  destruct (dict_find d "project") as [[ | | | | | | [|kv r]]|].
  1-7, 9: destruct Hp as [_ ->]; exact SP.
  subst p. split; [rewrite E; reflexivity | exact SP].
Qed.

Lemma C1_project_name_gate_witness :
  valid_config demo = true
  /\ exists ls,
       config_lines demo = Ok ls
       /\ hd_error ls = Some "PROJECT_NAME=demo"
       /\ lines_of "PROJECT_NAME=" ls = ["PROJECT_NAME=demo"].
Proof.
  split; [reflexivity|].
  destruct (C1_project_name_gate demo eq_refl) as (d & ls & Ed & Hls & H).
  injection Ed as <-. exists ls. split; [exact Hls | exact H].
Defined.

(** C1 as stated fails: the project section is present and no
    [PROJECT_NAME] line is emitted. *)
Lemma C1_empty_project_no_line :
  py_get empty_project "project" YNull = Ok (YMap [])
  /\ exists ls,
       config_lines empty_project = Ok ls
       /\ lines_of "PROJECT_NAME=" ls = []
       /\ Forall (fun line => starts_with "PROJECT_NAME" line = false) ls.
Proof.
  split; [reflexivity|].
  eexists. split; [reflexivity|]. split; [reflexivity|].
  repeat constructor.
Qed.

(** ** The Claude configuration *)

Lemma flag_bool (cd : dict) (key : string) (b : bool) :
  dict_find cd key = Some (YBool b) ->
  flag (YMap cd) key = Ok (YStr (if b then "true" else "false")).
Proof.
  intros H. unfold flag. simpl. unfold dict_get. rewrite H.
  destruct b; reflexivity.
Qed.

(** C7. A valid document without [claude] section still gets the seven
    [CLAUDE_] lines, at the end of the output, with the defaults
    [false], [false], [3], [sonnet], [opus], [0.50] and [1.00]; and a
    boolean [enabled] or [auto_fix] is turned into the lowercase word
    [true] or [false], which is then escaped (to itself). *)
Theorem C7_claude_defaults (d : dict) :
  valid_config (YMap d) = true ->
  dict_find d "claude" = None ->
  (exists front,
      config_lines (YMap d) = Ok (front ++ claude_defaults)%list
      /\ lines_of "CLAUDE_" (front ++ claude_defaults) = claude_defaults)
  /\ (forall (cd : dict) (key : string) (b : bool),
         dict_find cd key = Some (YBool b) ->
         flag (YMap cd) key = Ok (YStr (if b then "true" else "false")))
  /\ (forall (cd : dict) (b1 b2 : bool),
         dict_find cd "enabled" = Some (YBool b1) ->
         dict_find cd "auto_fix" = Some (YBool b2) ->
         exists rest,
           claude_lines (YMap cd)
           = Ok (("CLAUDE_ENABLED=" ++ (if b1 then "true" else "false"))
                 :: ("CLAUDE_AUTO_FIX=" ++ (if b2 then "true" else "false"))
                 :: rest)).
Proof.
  intros V A. split; [|split].
  - destruct (valid_config_lines _ V) as (d' & ls & Ed & Hls).
    injection Ed as <-.
    pose proof (config_lines_select d ls Hls)
      as (p & n & jobs & J & cd & _ & _ & _ & _ & _ & Hcd & E & _ & _ & _ & SC).
    unfold dict_get in Hcd. rewrite A in Hcd. injection Hcd as <-.
    change (seven_lines []) with claude_defaults in *.
    exists (p ++ [("NUM_JOBS=" ++ str_nat n)%string] ++ J)%list.
    assert (ls = ((p ++ [("NUM_JOBS=" ++ str_nat n)%string] ++ J)
                  ++ claude_defaults)%list) as E'.
    { rewrite E, <- !app_assoc. reflexivity. }
    rewrite <- E'. split; [exact Hls | exact SC].
  - exact flag_bool.
  - intros cd b1 b2 H1 H2. rewrite claude_lines_map. unfold seven_lines.
    unfold dict_get at 1 2. rewrite H1, H2. eexists.
    destruct b1, b2; reflexivity.
Qed.

Lemma C7_claude_defaults_witness :
  valid_config demo = true
  /\ exists front, config_lines demo = Ok (front ++ claude_defaults)%list.
Proof.
  split; [reflexivity|].
  destruct (proj1 (C7_claude_defaults demo_items eq_refl eq_refl)) as (front & H & _).
  exists front. exact H.
Defined.

(** ** Dependencies *)

Lemma str_forall_app (p : ascii -> bool) (a b : string) :
  str_forall p (a ++ b) = str_forall p a && str_forall p b.
Proof.
  induction a as [|c a IH]; [reflexivity|].
  simpl. rewrite IH. apply andb_assoc.
Qed.

Lemma name_chars_str_nat (n : nat) : str_forall Sh.name_char (str_nat n) = true.
Proof.
  pose proof (digits_str_nat n) as D.
  induction (str_nat n) as [|c s IH]; [reflexivity|].
  simpl in *. apply andb_prop in D as [Dc Ds].
  rewrite (digit_name_char c Dc), (IH Ds). reflexivity.
Qed.

(** What the shell makes of a job line. *)
Lemma assign_job_line (i : nat) (field tok : string) :
  str_forall Sh.name_char field = true ->
  Sh.assign ("JOB_" ++ str_nat i ++ field ++ "=" ++ tok) =
  match Sh.word Sh.Bare tok with
  | Some v => Some ("JOB_" ++ str_nat i ++ field, v)
  | None => None
  end.
Proof.
  intros F.
  replace ("JOB_" ++ str_nat i ++ field ++ "=" ++ tok)
    with (("JOB_" ++ str_nat i ++ field) ++ "=" ++ tok).
  - apply assign_name. cbn [append Sh.is_name str_forall].
    rewrite str_forall_app, name_chars_str_nat, F. reflexivity.
  - cbn [append]. rewrite append_assoc. reflexivity.
Qed.

Lemma dict_find_app (a b : dict) (key : string) :
  dict_find (a ++ b) key =
  match dict_find a key with
  | Some v => Some v
  | None => dict_find b key
  end.
Proof.
  induction a as [|[k v] a IH]; [reflexivity|].
  simpl. destruct (key_is key k); [reflexivity | exact IH].
Qed.

(** Changing the value of one key leaves the other keys as they are. *)
Lemma dict_get_other (pre post : dict) (k x y : pyval) (key : string) dflt :
  key_is key k = false ->
  dict_get (pre ++ (k, x) :: post) key dflt
  = dict_get (pre ++ (k, y) :: post) key dflt.
Proof.
  intros N. unfold dict_get. rewrite !dict_find_app. simpl. rewrite N.
  reflexivity.
Qed.

Lemma str_items_strs (ss : list string) : str_items (map YStr ss) = Ok ss.
Proof. induction ss as [|s ss IH]; simpl; [|rewrite IH]; reflexivity. Qed.

(** The job with [depends_on: s] and the job with [depends_on: [s]]. *)
Lemma job_lines_str_or_seq (i : nat) (pre post : dict) (s : string) :
  job_lines i (YMap (pre ++ (YStr "depends_on", YStr s) :: post))
  = job_lines i (YMap (pre ++ (YStr "depends_on", YSeq [YStr s]) :: post)).
Proof.
  rewrite !job_lines_map.
  assert (depends_of (YMap (pre ++ (YStr "depends_on", YStr s) :: post))
          = depends_of (YMap (pre ++ (YStr "depends_on", YSeq [YStr s]) :: post)))
    as D.
  { unfold depends_of. simpl. unfold dict_get. rewrite !dict_find_app. simpl.
    destruct (dict_find pre "depends_on"); reflexivity. }
  rewrite D.
  rewrite (dict_get_other pre post _ (YStr s) (YSeq [YStr s]) "name") by reflexivity.
  rewrite (dict_get_other pre post _ (YStr s) (YSeq [YStr s]) "script") by reflexivity.
  rewrite (dict_get_other pre post _ (YStr s) (YSeq [YStr s]) "type") by reflexivity.
  rewrite (dict_get_other pre post _ (YStr s) (YSeq [YStr s]) "array") by reflexivity.
  rewrite (dict_get_other pre post _ (YStr s) (YSeq [YStr s]) "sbatch_flags")
    by reflexivity.
  reflexivity.
Qed.

Lemma jobs_loop_congr (before after : list pyval) (j1 j2 : pyval) :
  (forall i, job_lines i j1 = job_lines i j2) ->
  forall i, jobs_loop i (before ++ j1 :: after) = jobs_loop i (before ++ j2 :: after).
Proof.
  intros H. induction before as [|j before IH]; intros i; simpl.
  - rewrite H. reflexivity.
  - rewrite IH. reflexivity.
Qed.

(** The same, for the whole output of a document that holds the job. *)
Lemma flatten_str_or_seq (cpre cpost : dict) (before after : list pyval)
      (pre post : dict) (s : string) :
  flatten (YMap (cpre ++ (YStr "jobs",
             YSeq (before ++ YMap (pre ++ (YStr "depends_on", YStr s) :: post)
                     :: after)) :: cpost))
  = flatten (YMap (cpre ++ (YStr "jobs",
             YSeq (before ++ YMap (pre ++ (YStr "depends_on", YSeq [YStr s]) :: post)
                     :: after)) :: cpost)).
Proof.
  unfold flatten. f_equal.
  unfold config_lines, project_lines, jobs_lines. simpl.
  set (j1 := YMap (pre ++ (YStr "depends_on", YStr s) :: post)).
  set (j2 := YMap (pre ++ (YStr "depends_on", YSeq [YStr s]) :: post)).
  rewrite (dict_get_other cpre cpost _ (YSeq (before ++ j1 :: after))
             (YSeq (before ++ j2 :: after)) "project") by reflexivity.
  rewrite (dict_get_other cpre cpost _ (YSeq (before ++ j1 :: after))
             (YSeq (before ++ j2 :: after)) "claude") by reflexivity.
  f_equal.
  unfold dict_get. rewrite !dict_find_app. simpl.
  destruct (dict_find cpre "jobs"); [reflexivity|]. simpl.
  rewrite !length_app. simpl.
  rewrite (jobs_loop_congr before after j1 j2
             (fun i => job_lines_str_or_seq i pre post s) 0).
  reflexivity.
Qed.

(** C6. Dependencies: a job without [depends_on] gets the line
    [JOB_i_DEPENDS_ON=''], which sets the variable to the empty string;
    a job whose [depends_on] is one string gives the same lines, and its
    document the same output, as with the one-element sequence of that
    string; and a sequence of strings is written as its elements, in
    order, with commas between them (the shell reads the joined text
    back, less the NUL bytes it cannot hold). *)
Theorem C6_depends_on (i : nat) :
  (forall jd : dict,
      dict_find jd "depends_on" = None ->
      exists ls,
        job_lines i (YMap jd) = Ok ls
        /\ nth_error ls 4 = Some ("JOB_" ++ str_nat i ++ "_DEPENDS_ON=" ++ "''")
        /\ Sh.assign ("JOB_" ++ str_nat i ++ "_DEPENDS_ON=" ++ "''")
           = Some ("JOB_" ++ str_nat i ++ "_DEPENDS_ON", ""))
  /\ (forall (pre post : dict) (s : string),
         job_lines i (YMap (pre ++ (YStr "depends_on", YStr s) :: post))
         = job_lines i (YMap (pre ++ (YStr "depends_on", YSeq [YStr s]) :: post)))
  /\ (forall (cpre cpost : dict) (before after : list pyval)
             (pre post : dict) (s : string),
         flatten (YMap (cpre ++ (YStr "jobs",
             YSeq (before ++ YMap (pre ++ (YStr "depends_on", YStr s) :: post)
                     :: after)) :: cpost))
         = flatten (YMap (cpre ++ (YStr "jobs",
             YSeq (before
                     ++ YMap (pre ++ (YStr "depends_on", YSeq [YStr s]) :: post)
                     :: after)) :: cpost)))
  /\ (forall (jd : dict) (ss : list string),
         dict_find jd "depends_on" = Some (YSeq (map YStr ss)) ->
         exists ls,
           job_lines i (YMap jd) = Ok ls
           /\ nth_error ls 4
              = Some ("JOB_" ++ str_nat i ++ "_DEPENDS_ON="
                        ++ shell_escape (YStr (String.concat "," ss)))
           /\ Sh.assign ("JOB_" ++ str_nat i ++ "_DEPENDS_ON="
                           ++ shell_escape (YStr (String.concat "," ss)))
              = Some ("JOB_" ++ str_nat i ++ "_DEPENDS_ON",
                      Sh.strip_nul (String.concat "," ss))
           /\ (str_contains nul (String.concat "," ss) = false ->
               Sh.assign ("JOB_" ++ str_nat i ++ "_DEPENDS_ON="
                            ++ shell_escape (YStr (String.concat "," ss)))
               = Some ("JOB_" ++ str_nat i ++ "_DEPENDS_ON",
                       String.concat "," ss))).
Proof.
  split; [|split; [|split]].
  - intros jd A.
    rewrite (job_lines_joined i jd (YSeq []) "").
    + eexists. split; [reflexivity|]. split; [reflexivity|].
      apply (assign_job_line i "_DEPENDS_ON" "''"). reflexivity.
    + unfold depends_of. simpl. unfold dict_get. rewrite A. reflexivity.
    + reflexivity.
  - apply job_lines_str_or_seq.
  - apply flatten_str_or_seq.
  - intros jd ss A.
    rewrite (job_lines_joined i jd (YSeq (map YStr ss)) (String.concat "," ss)).
    + eexists. split; [reflexivity|]. split; [reflexivity|].
      pose proof (assign_job_line i "_DEPENDS_ON"
                    (shell_escape (YStr (String.concat "," ss))) eq_refl) as H.
      cbn [shell_escape py_str] in H. rewrite word_quote in H.
      split; [exact H|]. intros N. rewrite (strip_nul_id _ N) in H. exact H.
    + unfold depends_of. simpl. unfold dict_get. rewrite A. reflexivity.
    + unfold str_join. simpl. rewrite str_items_strs. reflexivity.
Qed.

Lemma C6_depends_on_witness :
  flatten (YMap [ (YStr "jobs",
                   YSeq [ YMap [(YStr "name", YStr "simulation")];
                          YMap [(YStr "name", YStr "merge_results");
                                (YStr "depends_on", YStr "simulation")] ]) ])
  = flatten (YMap [ (YStr "jobs",
                     YSeq [ YMap [(YStr "name", YStr "simulation")];
                            YMap [(YStr "name", YStr "merge_results");
                                  (YStr "depends_on",
                                   YSeq [YStr "simulation"])] ]) ])
  /\ exists ls,
       job_lines 1 (YMap [ (YStr "name", YStr "merge_results");
                           (YStr "depends_on", YSeq [YStr "a"; YStr "b c"]) ])
       = Ok ls
       /\ nth_error ls 4 = Some "JOB_1_DEPENDS_ON='a,b c'".
Proof.
  split.
  - exact (proj1 (proj2 (proj2 (C6_depends_on 1)))
             [] [] [YMap [(YStr "name", YStr "simulation")]] []
             [(YStr "name", YStr "merge_results")] [] "simulation").
  - destruct (proj2 (proj2 (proj2 (C6_depends_on 1)))
                [ (YStr "name", YStr "merge_results");
                  (YStr "depends_on", YSeq [YStr "a"; YStr "b c"]) ]
                ["a"; "b c"] eq_refl) as (ls & H & N & _).
    exists ls. split; [exact H | exact N].
Defined.

(** ** The process *)

Section ProcessFacts.

Variable load : string -> loaded.
Variables prog path : string.

Lemma main_ok (output : string) :
  parse_cluster_yaml load path = Ok output ->
  main load prog [path] = Exit 0 (output ++ nl) "".
Proof. intros H. unfold main. rewrite H. reflexivity. Qed.

Lemma main_not_found :
  load path = NoSuchFile ->
  main load prog [path] = Exit 1 "" ("Error: " ++ path ++ " not found" ++ nl).
Proof. intros H. unfold main, parse_cluster_yaml. rewrite H. reflexivity. Qed.

Lemma main_malformed (msg : string) :
  load path = Malformed msg ->
  main load prog [path] = Exit 1 "" ("Error parsing YAML: " ++ msg ++ nl).
Proof. intros H. unfold main, parse_cluster_yaml. rewrite H. reflexivity. Qed.

Lemma main_unhandled (e : exn) :
  unhandled e ->
  parse_cluster_yaml load path = Raise e ->
  main load prog [path] = Uncaught e.
Proof.
  intros U H. unfold main. rewrite H. destruct U as [-> | ->]; reflexivity.
Qed.

(** A loaded document that is not valid kills the process. *)
Lemma main_invalid (config : pyval) :
  load path = Document config ->
  valid_config config = false ->
  exists e, unhandled e
            /\ parse_cluster_yaml load path = Raise e
            /\ main load prog [path] = Uncaught e.
Proof.
  intros L V. rewrite <- flatten_ok in V.
  destruct (flatten config) as [out|e] eqn:F; [discriminate V|].
  assert (parse_cluster_yaml load path = Raise e) as P.
  { unfold parse_cluster_yaml. rewrite L. exact F. }
  apply flatten_raise in F as [_ U].
  exists e. split; [exact U|]. split; [exact P|].
  apply main_unhandled; assumption.
Qed.

Lemma exit_zero_iff :
  exit_status (main load prog [path]) = 0%Z
  <-> exists output, parse_cluster_yaml load path = Ok output.
Proof.
  unfold main. destruct (parse_cluster_yaml load path) as [out|e].
  - split; [eauto | reflexivity].
  - split.
    + destruct e; simpl; intros H; discriminate H.
    + intros (o & H). discriminate H.
Qed.

End ProcessFacts.

(** C8. Exit codes: when [parse_cluster_yaml] returns, its text and a
    newline go to standard output and the status is 0; when the path
    names no file, or the parser rejects the document, a message goes
    to standard error, nothing goes to standard output and the status
    is 1; the status is 0 in no other case than the first. *)
Theorem C8_exit_codes (load : string -> loaded) (prog path : string) :
  (forall output,
      parse_cluster_yaml load path = Ok output ->
      main load prog [path] = Exit 0 (output ++ nl) "")
  /\ (load path = NoSuchFile ->
      main load prog [path]
      = Exit 1 "" ("Error: " ++ path ++ " not found" ++ nl))
  /\ (forall msg,
         load path = Malformed msg ->
         main load prog [path]
         = Exit 1 "" ("Error parsing YAML: " ++ msg ++ nl))
  /\ ((load path = NoSuchFile \/ exists msg, load path = Malformed msg) ->
      exit_status (main load prog [path]) = 1%Z
      /\ stdout (main load prog [path]) = "")
  /\ (exit_status (main load prog [path]) = 0%Z
      <-> exists output, parse_cluster_yaml load path = Ok output).
Proof.
  split; [apply main_ok|]. split; [apply main_not_found|].
  split; [apply main_malformed|]. split; [|apply exit_zero_iff].
  intros [H | (msg & H)].
  - rewrite (main_not_found _ _ _ H). split; reflexivity.
  - rewrite (main_malformed _ _ _ _ H). split; reflexivity.
Qed.

Lemma C8_exit_codes_witness :
  main disk "parse_cluster_yaml.py" ["missing.yaml"]
  = Exit 1 "" ("Error: missing.yaml not found" ++ nl)
  /\ main disk "parse_cluster_yaml.py" ["broken.yaml"]
     = Exit 1 "" ("Error parsing YAML: mapping values are not allowed here" ++ nl)
  /\ exists output,
       flatten demo = Ok output
       /\ main disk "parse_cluster_yaml.py" ["cluster.yaml"]
          = Exit 0 (output ++ nl) "".
Proof.
  split; [|split].
  - exact (proj1 (proj2 (C8_exit_codes disk "parse_cluster_yaml.py"
                           "missing.yaml")) eq_refl).
  - exact (proj1 (proj2 (proj2 (C8_exit_codes disk "parse_cluster_yaml.py"
                                  "broken.yaml"))) _ eq_refl).
  - eexists. split; [reflexivity|].
    exact (proj1 (C8_exit_codes disk "parse_cluster_yaml.py" "cluster.yaml")
             _ eq_refl).
Defined.

(** C2 (as the code has it). The parse error is the parser's: the
    function raises it exactly when the parser rejects the content,
    and then the process writes [Error parsing YAML:] and the parser's
    message to standard error, nothing to standard output, and exits
    with status 1.  Content that loads as something else than a mapping
    (null, a scalar, a sequence) is no parse error: the function raises
    [AttributeError], which nobody handles. *)
Theorem C2_parse_error (load : string -> loaded) (prog path : string) :
  ((exists msg, parse_cluster_yaml load path = Raise (YAMLError msg))
   <-> exists msg, load path = Malformed msg)
  /\ (forall msg,
         load path = Malformed msg ->
         main load prog [path] = Exit 1 "" ("Error parsing YAML: " ++ msg ++ nl))
  /\ (forall config,
         load path = Document config ->
         is_map config = false ->
         parse_cluster_yaml load path = Raise AttributeError
         /\ main load prog [path] = Uncaught AttributeError
         /\ exit_status (main load prog [path]) = 1%Z
         /\ stdout (main load prog [path]) = "").
Proof.
  split; [|split].
  - split.
    + intros (msg & H). unfold parse_cluster_yaml in H.
      destruct (load path) as [ | m | config]; [discriminate H | eauto |].
      apply flatten_raise in H as [_ [U | U]]; discriminate U.
    + intros (msg & H). exists msg. unfold parse_cluster_yaml. rewrite H.
      reflexivity.
  - apply main_malformed.
  - intros config L M.
    assert (parse_cluster_yaml load path = Raise AttributeError) as P.
    { unfold parse_cluster_yaml. rewrite L.
      destruct config; try reflexivity. discriminate M. }
    split; [exact P|].
    rewrite (main_unhandled load prog path AttributeError (or_introl eq_refl) P).
    repeat split.
Qed.

Lemma C2_parse_error_witness :
  main disk "parse_cluster_yaml.py" ["broken.yaml"]
  = Exit 1 "" ("Error parsing YAML: mapping values are not allowed here" ++ nl)
  /\ main empty_files "parse_cluster_yaml.py" ["cluster.yaml"]
     = Uncaught AttributeError.
Proof.
  split.
  - exact (proj1 (proj2 (C2_parse_error disk "parse_cluster_yaml.py"
                           "broken.yaml")) _ eq_refl).
  - exact (proj1 (proj2 (proj2 (proj2 (C2_parse_error empty_files
             "parse_cluster_yaml.py" "cluster.yaml")) YNull eq_refl eq_refl))).
Defined.

(** C2 as stated fails: the content loads as null, not as a mapping,
    and what comes out is neither a parse error nor the report of one. *)
Lemma C2_null_document_no_parse_error :
  empty_files "cluster.yaml" = Document YNull
  /\ is_map YNull = false
  /\ parse_cluster_yaml empty_files "cluster.yaml" = Raise AttributeError
  /\ (forall msg,
         parse_cluster_yaml empty_files "cluster.yaml" <> Raise (YAMLError msg))
  /\ main empty_files "parse_cluster_yaml.py" ["cluster.yaml"]
     = Uncaught AttributeError
  /\ (forall msg,
         main empty_files "parse_cluster_yaml.py" ["cluster.yaml"]
         <> Exit 1 "" ("Error parsing YAML: " ++ msg ++ nl)).
Proof.
  repeat split; intros msg H; discriminate H.
Qed.

(** ** Keys present with a null value *)

Lemma job_lines_not_map (i : nat) (job : pyval) :
  is_map job = false -> job_lines i job = Raise AttributeError.
Proof. destruct job; intros H; try reflexivity. discriminate H. Qed.

(** The loop stops with [AttributeError] at the first element that is
    not a mapping, when the elements before it went through. *)
Lemma jobs_loop_not_map (jobs : list pyval) (k : nat) (job : pyval) (i : nat) :
  nth_error jobs k = Some job ->
  is_map job = false ->
  forallb valid_job (firstn k jobs) = true ->
  jobs_loop i jobs = Raise AttributeError.
Proof.
  revert k i. induction jobs as [|j jobs IH]; intros k i N M F.
  - destruct k; discriminate N.
  - destruct k as [|k]; simpl in N.
    + injection N as ->. simpl. rewrite (job_lines_not_map i job M). reflexivity.
    + simpl in F. apply andb_prop in F as [Fj F].
      rewrite <- (job_lines_ok i j) in Fj. apply is_ok_true in Fj as (ls & Hls).
      simpl. rewrite Hls. simpl. rewrite (IH k (S i) N M F). reflexivity.
Qed.

Lemma valid_job_map (job : pyval) : valid_job job = true -> is_map job = true.
Proof. destruct job; simpl; intros H; try discriminate H. reflexivity. Qed.

Lemma forallb_valid_job_in (jobs : list pyval) (job : pyval) :
  In job jobs -> is_map job = false -> forallb valid_job jobs = false.
Proof.
  intros I M. destruct (forallb valid_job jobs) eqn:F; [|reflexivity].
  rewrite forallb_forall in F. apply F, valid_job_map in I. congruence.
Qed.

(** C9. A default stands in for an absent key only: a key present
    with a null value yields the null.  In a loaded mapping, free of
    integers too long to print, whose project section goes through (it
    counts as false or is a mapping), [jobs: null] makes the function
    raise [TypeError]; when the jobs go through as well, [claude: null]
    makes it raise [AttributeError]; and an element of [jobs] that is
    not a mapping makes it raise [AttributeError] when the elements
    before it went through.  Whatever the rest of such a document, each
    of the three ends the process with an exception neither handler
    catches: [TypeError] or [AttributeError], status 1, nothing on
    standard output. *)
Theorem C9_null_sections (load : string -> loaded) (prog path : string)
        (d : dict) :
  load path = Document (YMap d) ->
  renders (YMap d) = true ->
  (forall key dflt, dict_find d key = Some YNull -> dict_get d key dflt = YNull)
  /\ (valid_project (dict_get d "project" (YMap [])) = true ->
      dict_find d "jobs" = Some YNull ->
      parse_cluster_yaml load path = Raise TypeError
      /\ main load prog [path] = Uncaught TypeError)
  /\ (valid_project (dict_get d "project" (YMap [])) = true ->
      valid_jobs (dict_get d "jobs" (YSeq [])) = true ->
      dict_find d "claude" = Some YNull ->
      parse_cluster_yaml load path = Raise AttributeError
      /\ main load prog [path] = Uncaught AttributeError)
  /\ (forall jobs k job,
         valid_project (dict_get d "project" (YMap [])) = true ->
         dict_find d "jobs" = Some (YSeq jobs) ->
         nth_error jobs k = Some job ->
         is_map job = false ->
         forallb valid_job (firstn k jobs) = true ->
         parse_cluster_yaml load path = Raise AttributeError
         /\ main load prog [path] = Uncaught AttributeError)
  /\ ((dict_find d "jobs" = Some YNull
       \/ dict_find d "claude" = Some YNull
       \/ exists jobs job,
            dict_find d "jobs" = Some (YSeq jobs)
            /\ In job jobs /\ is_map job = false) ->
      exists e,
        (e = TypeError \/ e = AttributeError)
        /\ parse_cluster_yaml load path = Raise e
        /\ main load prog [path] = Uncaught e
        /\ exit_status (main load prog [path]) = 1%Z
        /\ stdout (main load prog [path]) = "").
Proof.
  intros L _.
  assert (forall e, unhandled e -> config_lines (YMap d) = Raise e ->
                    parse_cluster_yaml load path = Raise e
                    /\ main load prog [path] = Uncaught e) as R.
  { intros e U H.
    assert (parse_cluster_yaml load path = Raise e) as P.
    { unfold parse_cluster_yaml, flatten, fmap. rewrite L, H. reflexivity. }
    split; [exact P | apply main_unhandled; assumption]. }
  split; [|split; [|split; [|split]]].
  - intros key dflt H. unfold dict_get. rewrite H. reflexivity.
  - intros VP J. apply R; [right; reflexivity|].
    rewrite <- project_lines_ok in VP. apply is_ok_true in VP as (p & Hp).
    unfold config_lines. rewrite Hp. unfold jobs_lines. simpl.
    unfold dict_get. rewrite J. reflexivity.
  - intros VP VJ C. apply R; [left; reflexivity|].
    rewrite <- project_lines_ok in VP. apply is_ok_true in VP as (p & Hp).
    rewrite <- jobs_lines_ok in VJ. apply is_ok_true in VJ as (j & Hj).
    unfold config_lines. rewrite Hp, Hj. simpl.
    unfold dict_get. rewrite C. reflexivity.
  - intros jobs k job VP J N M F. apply R; [left; reflexivity|].
    rewrite <- project_lines_ok in VP. apply is_ok_true in VP as (p & Hp).
    unfold config_lines. rewrite Hp. unfold jobs_lines. simpl.
    unfold dict_get. rewrite J. simpl.
    rewrite (jobs_loop_not_map jobs k job 0 N M F). reflexivity.
  - intros H.
    assert (valid_config (YMap d) = false) as V.
    { unfold valid_config, dict_get.
      destruct H as [J | [C | (jobs & job & J & I & M)]].
      - rewrite J. simpl. apply andb_false_intro1, andb_false_intro2. reflexivity.
      - rewrite C. apply andb_false_intro2. reflexivity.
      - rewrite J. simpl. rewrite (forallb_valid_job_in jobs job I M).
        apply andb_false_intro1, andb_false_intro2. reflexivity. }
    destruct (main_invalid load prog path _ L V) as (e & U & P & Hm).
    exists e. rewrite Hm.
    split; [destruct U; auto|]. repeat split; assumption.
Qed.

Lemma C9_null_sections_witness :
  main (fun _ => Document (YMap null_jobs)) "parse_cluster_yaml.py"
       ["cluster.yaml"] = Uncaught TypeError
  /\ main (fun _ => Document (YMap null_claude)) "parse_cluster_yaml.py"
          ["cluster.yaml"] = Uncaught AttributeError.
Proof.
  split.
  - exact (proj2 (proj1 (proj2 (C9_null_sections
             (fun _ => Document (YMap null_jobs)) "parse_cluster_yaml.py"
             "cluster.yaml" null_jobs eq_refl eq_refl)) eq_refl eq_refl)).
  - exact (proj2 (proj1 (proj2 (proj2 (C9_null_sections
             (fun _ => Document (YMap null_claude)) "parse_cluster_yaml.py"
             "cluster.yaml" null_claude eq_refl eq_refl))) eq_refl eq_refl eq_refl)).
Defined.

(** ** How scalars are written *)

(** C10. Scalars: the [NUM_JOBS] line is [NUM_JOBS=] followed, with no
    quoting, by the length of [jobs] in decimal; every other value that
    is not [None] is turned into text by [str] and that text is quoted;
    so the integer 3 is written [3], and the float written [0.50] in
    the document comes out as [0.5] (and [1.00] as [1.0]), whereas the
    defaults, being the strings [0.50] and [1.00], keep their zeros. *)
Theorem C10_scalar_rendering :
  (forall config,
      valid_config config = true ->
      exists d n ls,
        config = YMap d
        /\ py_len (dict_get d "jobs" (YSeq [])) = Ok n
        /\ config_lines config = Ok ls
        /\ lines_of "NUM_JOBS=" ls = ["NUM_JOBS=" ++ str_nat n]
        /\ option_map Nat.of_uint (NilZero.uint_of_string (str_nat n)) = Some n)
  /\ (forall v, v <> YNull -> shell_escape v = Shlex.quote (py_str v))
  /\ (py_str (YInt 3) = "3" /\ shell_escape (YInt 3) = "3")
  /\ (float_is_decimal half 50 (-2) = true
      /\ py_str (YFloat half) = "0.5"
      /\ shell_escape (YFloat half) = "0.5")
  /\ claude_lines (YMap numeric_claude)
     = Ok [ "CLAUDE_ENABLED=false"; "CLAUDE_AUTO_FIX=false";
            "CLAUDE_MAX_FIX_CYCLES=3"; "CLAUDE_REVIEW_MODEL=sonnet";
            "CLAUDE_FIX_MODEL=opus"; "CLAUDE_REVIEW_BUDGET=0.5";
            "CLAUDE_FIX_BUDGET=1.0" ]
  /\ claude_lines (YMap [])
     = Ok [ "CLAUDE_ENABLED=false"; "CLAUDE_AUTO_FIX=false";
            "CLAUDE_MAX_FIX_CYCLES=3"; "CLAUDE_REVIEW_MODEL=sonnet";
            "CLAUDE_FIX_MODEL=opus"; "CLAUDE_REVIEW_BUDGET=0.50";
            "CLAUDE_FIX_BUDGET=1.00" ].
Proof.
  split; [|split; [|split; [|split; [|split]]]].
  - intros config V.
    destruct (valid_config_lines config V) as (d & ls & -> & Hls).
    pose proof (config_lines_select d ls Hls)
      as (p & n & jobs & J & cd & _ & Hn & _ & _ & _ & _ & _ & _ & SN & _).
    exists d, n, ls. repeat split; try assumption. apply read_str_nat.
  - intros v N. destruct v; try reflexivity. contradiction N. reflexivity.
  - split; reflexivity.
  - repeat split; vm_compute; reflexivity.
  - vm_compute. reflexivity.
  - reflexivity.
Qed.

Lemma C10_scalar_rendering_witness :
  valid_config two_jobs = true
  /\ (exists ls,
         config_lines two_jobs = Ok ls
         /\ lines_of "NUM_JOBS=" ls = ["NUM_JOBS=2"])
  /\ shell_escape (YBool true) = "True".
Proof.
  split; [reflexivity|]. split.
  - destruct (proj1 C10_scalar_rendering two_jobs eq_refl)
      as (d & n & ls & Ed & Hn & Hls & SN & _).
    injection Ed as <-. injection Hn as <-.
    exists ls. split; [exact Hls | exact SN].
  - exact (proj1 (proj2 C10_scalar_rendering) (YBool true)
             ltac:(discriminate)).
Defined.

(** * Further properties of the script *)

(** ** The command line *)

(** X1. With no argument, or with more than one, the script reads no
    file: whatever the files are, it writes the usage message to
    standard error, nothing to standard output, and exits with
    status 1. *)
Theorem X1_usage (load : string -> loaded) (prog : string) (args : list string) :
  List.length args <> 1 ->
  main load prog args = Exit 1 "" (usage prog).
Proof.
  intros H. destruct args as [|a [|b r]]; try reflexivity.
  contradiction H. reflexivity.
Qed.

Lemma X1_usage_witness :
  main disk "parse_cluster_yaml.py" [] = Exit 1 "" (usage "parse_cluster_yaml.py")
  /\ main disk "parse_cluster_yaml.py" ["cluster.yaml"; "broken.yaml"]
     = Exit 1 "" (usage "parse_cluster_yaml.py").
Proof.
  split.
  - apply (X1_usage disk "parse_cluster_yaml.py" []). discriminate.
  - apply (X1_usage disk "parse_cluster_yaml.py" ["cluster.yaml"; "broken.yaml"]).
    discriminate.
Defined.

(** X2. When the script succeeds: given one path to a file that holds
    no integer too long to print, the status is 0 exactly when the file
    loads as a document that is valid (a mapping; a project section
    that counts as false or is a mapping; jobs that are mappings whose
    [depends_on] is a string or yields strings; a Claude section that
    is a mapping); a loaded document that is not valid ends the process
    with an [AttributeError] or a [TypeError] nobody catches. *)
Theorem X2_success_iff_valid (load : string -> loaded) (prog path : string) :
  (forall config, load path = Document config -> renders config = true) ->
  (exit_status (main load prog [path]) = 0%Z
   <-> exists config, load path = Document config /\ valid_config config = true)
  /\ (forall config,
         load path = Document config ->
         valid_config config = false ->
         exists e, (e = AttributeError \/ e = TypeError)
                   /\ main load prog [path] = Uncaught e).
Proof.
  intros _. split.
  - rewrite exit_zero_iff. unfold parse_cluster_yaml.
    destruct (load path) as [ | msg | config].
    + split; [intros (o & H); discriminate H | intros (c & H & _); discriminate H].
    + split; [intros (o & H); discriminate H | intros (c & H & _); discriminate H].
    + split.
      * intros (o & H). exists config. split; [reflexivity|].
        rewrite <- flatten_ok, H. reflexivity.
      * intros (c & H & V). injection H as <-.
        rewrite <- flatten_ok in V. apply is_ok_true, V.
  - intros config L V.
    destruct (main_invalid load prog path config L V) as (e & U & _ & M).
    exists e. split; [destruct U; auto | exact M].
Qed.

Lemma X2_success_iff_valid_witness :
  (forall config, disk "cluster.yaml" = Document config -> renders config = true)
  /\ exit_status (main disk "parse_cluster_yaml.py" ["cluster.yaml"]) = 0%Z
  /\ exists e, main empty_files "parse_cluster_yaml.py" ["cluster.yaml"]
               = Uncaught e.
Proof.
  assert (forall config, disk "cluster.yaml" = Document config ->
                         renders config = true) as R1.
  { intros config H. injection H as <-. reflexivity. }
  assert (forall config, empty_files "cluster.yaml" = Document config ->
                         renders config = true) as R2.
  { intros config H. injection H as <-. reflexivity. }
  split; [exact R1|]. split.
  - apply (proj2 (proj1 (X2_success_iff_valid disk "parse_cluster_yaml.py"
                           "cluster.yaml" R1))).
    exists demo. split; reflexivity.
  - destruct (proj2 (X2_success_iff_valid empty_files "parse_cluster_yaml.py"
                       "cluster.yaml" R2) YNull eq_refl eq_refl) as (e & _ & H).
    exists e. exact H.
Defined.

(** X3. One print, at the end: the status is 0 or 1; with status 0
    standard output is the text of the document followed by one
    newline, and nothing went to standard error; with status 1
    standard output is empty.  So standard output never holds a part
    of the lines. *)
Theorem X3_all_or_nothing (load : string -> loaded) (prog : string)
        (args : list string) :
  (exit_status (main load prog args) = 0%Z
   \/ exit_status (main load prog args) = 1%Z)
  /\ (exit_status (main load prog args) = 0%Z ->
      exists path config text,
        args = [path] /\ load path = Document config
        /\ flatten config = Ok text
        /\ main load prog args = Exit 0 (text ++ nl) "")
  /\ (exit_status (main load prog args) = 1%Z ->
      stdout (main load prog args) = "").
Proof.
  assert (forall err, let o := Exit 1 "" err in
            (exit_status o = 0%Z \/ exit_status o = 1%Z)
            /\ (exit_status o = 0%Z ->
                exists path config text,
                  args = [path] /\ load path = Document config
                  /\ flatten config = Ok text /\ o = Exit 0 (text ++ nl) "")
            /\ (exit_status o = 1%Z -> stdout o = "")) as Failed.
  { intros err. simpl. split; [right; reflexivity|].
    split; [intros H; discriminate H | reflexivity]. }
  destruct args as [|path [|b r]]; try apply Failed.
  unfold main, parse_cluster_yaml.
  destruct (load path) as [ | msg | config] eqn:L; try apply Failed.
  destruct (flatten config) as [text|e] eqn:F.
  - simpl. split; [left; reflexivity|].
    split; [|intros H; discriminate H].
    intros _. exists path, config, text. auto.
  - destruct e; try apply Failed; simpl;
      (split; [right; reflexivity|]);
      (split; [intros H; discriminate H | reflexivity]).
Qed.

Lemma X3_all_or_nothing_witness :
  exists text,
    flatten demo = Ok text
    /\ main disk "parse_cluster_yaml.py" ["cluster.yaml"] = Exit 0 (text ++ nl) "".
Proof.
  destruct (proj1 (proj2 (X3_all_or_nothing disk "parse_cluster_yaml.py"
                            ["cluster.yaml"])) eq_refl)
    as (path & config & text & E & L & F & M).
  injection E as <-. injection L as <-.
  exists text. split; [exact F | exact M].
Defined.

(** ** The keys that count *)

Lemma agree_get (keys : list string) (d1 d2 : dict) (key : string) dflt :
  agree_on keys d1 d2 -> In key keys ->
  dict_get d1 key dflt = dict_get d2 key dflt.
Proof. intros A I. unfold dict_get. rewrite (A key I). reflexivity. Qed.

Lemma job_lines_agree (i : nat) (j1 j2 : dict) :
  agree_on job_keys j1 j2 -> job_lines i (YMap j1) = job_lines i (YMap j2).
Proof.
  intros A. rewrite !job_lines_map. unfold depends_of. cbn [py_get bind].
  rewrite (agree_get _ _ _ "name" _ A) by (simpl; tauto).
  rewrite (agree_get _ _ _ "script" _ A) by (simpl; tauto).
  rewrite (agree_get _ _ _ "type" _ A) by (simpl; tauto).
  rewrite (agree_get _ _ _ "array" _ A) by (simpl; tauto).
  rewrite (agree_get _ _ _ "depends_on" _ A) by (simpl; tauto).
  rewrite (agree_get _ _ _ "sbatch_flags" _ A) by (simpl; tauto).
  reflexivity.
Qed.

Lemma claude_lines_agree (c1 c2 : dict) :
  agree_on claude_keys c1 c2 -> claude_lines (YMap c1) = claude_lines (YMap c2).
Proof.
  intros A. rewrite !claude_lines_map. unfold seven_lines.
  rewrite (agree_get _ _ _ "enabled" _ A) by (simpl; tauto).
  rewrite (agree_get _ _ _ "auto_fix" _ A) by (simpl; tauto).
  rewrite (agree_get _ _ _ "max_fix_cycles" _ A) by (simpl; tauto).
  rewrite (agree_get _ _ _ "review_model" _ A) by (simpl; tauto).
  rewrite (agree_get _ _ _ "fix_model" _ A) by (simpl; tauto).
  rewrite (agree_get _ _ _ "review_budget" _ A) by (simpl; tauto).
  rewrite (agree_get _ _ _ "fix_budget" _ A) by (simpl; tauto).
  reflexivity.
Qed.

Lemma config_lines_agree (d1 d2 : dict) :
  agree_on config_keys d1 d2 -> config_lines (YMap d1) = config_lines (YMap d2).
Proof.
  intros A. unfold config_lines, project_lines, jobs_lines. cbn [py_get bind].
  rewrite (agree_get _ _ _ "project" _ A) by (simpl; tauto).
  rewrite (agree_get _ _ _ "jobs" _ A) by (simpl; tauto).
  rewrite (agree_get _ _ _ "claude" _ A) by (simpl; tauto).
  reflexivity.
Qed.

(** X4. Only the keys the function looks up count: two documents that
    hold the same [project], [jobs] and [claude] give the same result
    (the same text or the same exception), whatever other keys they
    have and in whatever order; likewise two jobs that agree on the six
    job keys, and two Claude sections that agree on the seven Claude
    keys.  In particular a key the function does not know can be added
    anywhere without any effect. *)
Theorem X4_other_keys_ignored :
  (forall d1 d2 : dict,
      agree_on config_keys d1 d2 -> flatten (YMap d1) = flatten (YMap d2))
  /\ (forall (i : nat) (j1 j2 : dict),
         agree_on job_keys j1 j2 ->
         job_lines i (YMap j1) = job_lines i (YMap j2))
  /\ (forall c1 c2 : dict,
         agree_on claude_keys c1 c2 ->
         claude_lines (YMap c1) = claude_lines (YMap c2))
  /\ (forall (pre post : dict) (k v : pyval),
         (forall key, In key config_keys -> key_is key k = false) ->
         flatten (YMap (pre ++ (k, v) :: post)) = flatten (YMap (pre ++ post))).
Proof.
  split; [|split; [|split]].
  - intros d1 d2 A. unfold flatten. rewrite (config_lines_agree d1 d2 A).
    reflexivity.
  - apply job_lines_agree.
  - apply claude_lines_agree.
  - intros pre post k v N. unfold flatten. f_equal.
    apply config_lines_agree. intros key I.
    rewrite !dict_find_app. simpl. rewrite (N key I). reflexivity.
Qed.

Lemma X4_other_keys_ignored_witness :
  agree_on config_keys demo_shuffled demo_items
  /\ flatten (YMap demo_shuffled) = flatten demo.
Proof.
  assert (agree_on config_keys demo_shuffled demo_items) as A.
  { intros key [<- | [<- | [<- | []]]]; reflexivity. }
  split; [exact A|].
  exact (proj1 X4_other_keys_ignored demo_shuffled demo_items A).
Defined.

(** ** Defaults and nulls *)

Lemma str_forall_impl (p q : ascii -> bool) (s : string) :
  (forall c, p c = true -> q c = true) ->
  str_forall p s = true -> str_forall q s = true.
Proof.
  intros I. induction s as [|c s IH]; simpl; [reflexivity|].
  intros H. apply andb_prop in H as [Hc Hs].
  rewrite (I c Hc), (IH Hs). reflexivity.
Qed.

Lemma digit_safe_char (c : ascii) : is_digit c = true -> Shlex.safe_char c = true.
Proof. each_char c; intros H; try discriminate H; reflexivity. Qed.

Lemma quote_safe (s : string) :
  s <> "" -> Shlex.all_safe s = true -> Shlex.quote s = s.
Proof.
  intros N S. unfold Shlex.quote. rewrite S.
  destruct (String.eqb s "") eqn:E; [|reflexivity].
  apply String.eqb_eq in E. contradiction.
Qed.

Lemma quote_default_name (i : nat) :
  Shlex.quote ("job_" ++ str_nat i) = "job_" ++ str_nat i.
Proof.
  apply quote_safe; [discriminate|].
  cbn [append]. unfold Shlex.all_safe. cbn [str_forall].
  change (str_forall Shlex.safe_char (str_nat i)) with (Shlex.all_safe (str_nat i)).
  unfold Shlex.all_safe.
  rewrite (str_forall_impl _ _ _ digit_safe_char (digits_str_nat i)).
  reflexivity.
Qed.

(** X5. The defaults of a job: a job that has none of the six job keys
    (an empty mapping, or one with other keys only) gives
    [JOB_i_NAME=job_i], with its own index and without quotes, the type
    [sbatch], and the quoted empty string [''] for the script, the
    array, the dependencies and the flags. *)
Theorem X5_job_defaults (i : nat) (jd : dict) :
  (forall key, In key job_keys -> dict_find jd key = None) ->
  job_lines i (YMap jd)
  = Ok [ "JOB_" ++ str_nat i ++ "_NAME=job_" ++ str_nat i;
         "JOB_" ++ str_nat i ++ "_SCRIPT=''";
         "JOB_" ++ str_nat i ++ "_TYPE=sbatch";
         "JOB_" ++ str_nat i ++ "_ARRAY=''";
         "JOB_" ++ str_nat i ++ "_DEPENDS_ON=''";
         "JOB_" ++ str_nat i ++ "_SBATCH_FLAGS=''" ].
Proof.
  intros A.
  assert (agree_on job_keys jd []) as G by (intros key I; apply (A key I)).
  rewrite (job_lines_agree i jd [] G), job_lines_map.
  unfold depends_of. cbn [py_get bind dict_get dict_find is_str].
  change (str_join "," (YSeq [])) with (@Ok string ""). cbn [bind].
  cbn [shell_escape py_str]. rewrite quote_default_name. reflexivity.
Qed.

Lemma X5_job_defaults_witness :
  job_lines 2 (YMap [(YStr "partition", YStr "gpu")])
  = Ok [ "JOB_2_NAME=job_2"; "JOB_2_SCRIPT=''"; "JOB_2_TYPE=sbatch";
         "JOB_2_ARRAY=''"; "JOB_2_DEPENDS_ON=''"; "JOB_2_SBATCH_FLAGS=''" ].
Proof.
  apply (X5_job_defaults 2 [(YStr "partition", YStr "gpu")]).
  intros key [<- | [<- | [<- | [<- | [<- | [<- | []]]]]]]; reflexivity.
Defined.

Lemma get_null (d : dict) (key : string) dflt :
  dict_find d key = Some YNull -> dict_get d key dflt = YNull.
Proof. intros H. unfold dict_get. rewrite H. reflexivity. Qed.

(** X6. A key present with a null value is not an absent key: in the
    Claude section a null [max_fix_cycles], [review_model],
    [fix_model], [review_budget] or [fix_budget] gives the variable
    with nothing after the equals sign instead of the default, and a
    null [enabled] or [auto_fix] gives the word [none]; in a job a null
    [name], [script], [type], [array] or [sbatch_flags] gives the
    variable with nothing after the equals sign. *)
Theorem X6_null_fields :
  (forall cd : dict,
      exists ls,
        claude_lines (YMap cd) = Ok ls
        /\ (dict_find cd "enabled" = Some YNull ->
            nth_error ls 0 = Some "CLAUDE_ENABLED=none")
        /\ (dict_find cd "auto_fix" = Some YNull ->
            nth_error ls 1 = Some "CLAUDE_AUTO_FIX=none")
        /\ (dict_find cd "max_fix_cycles" = Some YNull ->
            nth_error ls 2 = Some "CLAUDE_MAX_FIX_CYCLES=")
        /\ (dict_find cd "review_model" = Some YNull ->
            nth_error ls 3 = Some "CLAUDE_REVIEW_MODEL=")
        /\ (dict_find cd "fix_model" = Some YNull ->
            nth_error ls 4 = Some "CLAUDE_FIX_MODEL=")
        /\ (dict_find cd "review_budget" = Some YNull ->
            nth_error ls 5 = Some "CLAUDE_REVIEW_BUDGET=")
        /\ (dict_find cd "fix_budget" = Some YNull ->
            nth_error ls 6 = Some "CLAUDE_FIX_BUDGET="))
  /\ (forall (i : nat) (jd : dict),
         valid_job (YMap jd) = true ->
         exists ls,
           job_lines i (YMap jd) = Ok ls
           /\ (dict_find jd "name" = Some YNull ->
               nth_error ls 0 = Some ("JOB_" ++ str_nat i ++ "_NAME="))
           /\ (dict_find jd "script" = Some YNull ->
               nth_error ls 1 = Some ("JOB_" ++ str_nat i ++ "_SCRIPT="))
           /\ (dict_find jd "type" = Some YNull ->
               nth_error ls 2 = Some ("JOB_" ++ str_nat i ++ "_TYPE="))
           /\ (dict_find jd "array" = Some YNull ->
               nth_error ls 3 = Some ("JOB_" ++ str_nat i ++ "_ARRAY="))
           /\ (dict_find jd "sbatch_flags" = Some YNull ->
               nth_error ls 5 = Some ("JOB_" ++ str_nat i ++ "_SBATCH_FLAGS="))).
Proof.
  split.
  - intros cd. exists (seven_lines cd). split; [apply claude_lines_map|].
    unfold seven_lines.
    repeat split; intros H; cbn [nth_error]; rewrite (get_null _ _ _ H);
      reflexivity.
  - intros i jd V. rewrite <- (job_lines_ok i) in V.
    apply is_ok_true in V as (ls & Hls). exists ls. split; [exact Hls|].
    apply job_lines_six in Hls as (jd' & dep & jn & E & _ & _ & ->).
    injection E as <-. unfold six_lines.
    repeat split; intros H; cbn [nth_error]; rewrite (get_null _ _ _ H);
      cbn [shell_escape]; rewrite ?append_nil_r; reflexivity.
Qed.

Lemma X6_null_fields_witness :
  exists ls,
    claude_lines (YMap [(YStr "enabled", YNull); (YStr "fix_model", YNull)]) = Ok ls
    /\ nth_error ls 0 = Some "CLAUDE_ENABLED=none"
    /\ nth_error ls 4 = Some "CLAUDE_FIX_MODEL=".
Proof.
  destruct (proj1 X6_null_fields
              [(YStr "enabled", YNull); (YStr "fix_model", YNull)])
    as (ls & H & E & _ & _ & _ & F & _).
  exists ls. split; [exact H|]. split; [apply E | apply F]; reflexivity.
Defined.

(** ** Dependencies of the wrong kind *)

Lemma valid_job_depends (jd : dict) :
  valid_job (YMap jd) = false ->
  exists v,
    dict_get jd "depends_on" (YSeq []) = v
    /\ is_str v = false
    /\ is_ok (str_join "," v) = false.
Proof.
  unfold valid_job. intros V.
  exists (dict_get jd "depends_on" (YSeq [])). split; [reflexivity|].
  rewrite str_join_ok.
  destruct (dict_get jd "depends_on" (YSeq [])); auto. discriminate V.
Qed.

Lemma job_lines_type_error (i : nat) (jd : dict) :
  valid_job (YMap jd) = false -> job_lines i (YMap jd) = Raise TypeError.
Proof.
  intros V. destruct (valid_job_depends jd V) as (v & E & S & J).
  rewrite job_lines_map. unfold depends_of. cbn [py_get bind].
  rewrite E, S.
  destruct (str_join "," v) as [x|e] eqn:R; [discriminate J|].
  assert (e = TypeError) as ->.
  { unfold str_join in R.
    apply bind_raise in R as [R | (l & Hl & R)].
    - destruct v; simpl in R; congruence.
    - apply bind_raise in R as [R | (ss & _ & R)]; [|discriminate R].
      clear Hl. induction l as [|a l IH]; simpl in R; [discriminate R|].
      destruct a; try congruence.
      apply bind_raise in R as [R | (ss & _ & R)]; [auto | discriminate R]. }
  reflexivity.
Qed.

(** The loop stops with the exception of the first job that fails. *)
Lemma jobs_loop_raise (jobs : list pyval) (k : nat) (job : pyval) (i : nat) e :
  nth_error jobs k = Some job ->
  job_lines (i + k) job = Raise e ->
  forallb valid_job (firstn k jobs) = true ->
  jobs_loop i jobs = Raise e.
Proof.
  revert k i. induction jobs as [|j jobs IH]; intros k i N R F.
  - destruct k; discriminate N.
  - destruct k as [|k]; cbn [nth_error] in N.
    + injection N as ->. rewrite Nat.add_0_r in R.
      cbn [jobs_loop]. rewrite R. reflexivity.
    + cbn [firstn forallb] in F. apply andb_prop in F as [Fj F].
      rewrite <- (job_lines_ok i j) in Fj. apply is_ok_true in Fj as (ls & Hls).
      cbn [jobs_loop]. rewrite Hls. cbn [bind].
      replace (i + S k) with (S i + k) in R by lia.
      rewrite (IH k (S i) N R F). reflexivity.
Qed.

(** X7. Dependencies of the wrong kind: a job that is a mapping and
    holds no integer too long to print fails in one way only, when its
    [depends_on] is neither a string nor something that yields strings
    (null, a number, a boolean, a sequence with an element that is not
    a string): [','.join] raises [TypeError].  In a document free of
    such integers whose project section goes through, the first such
    job, when the jobs before it are valid, ends the process with that
    [TypeError], which nobody catches. *)
Theorem X7_depends_on_type_error (load : string -> loaded) (prog path : string)
        (d : dict) (jobs : list pyval) (k : nat) (jd : dict) :
  renders (YMap jd) = true ->
  (is_ok (job_lines 0 (YMap jd)) = false <-> valid_job (YMap jd) = false)
  /\ (valid_job (YMap jd) = false ->
      (forall i, job_lines i (YMap jd) = Raise TypeError)
      /\ (exists v,
             dict_get jd "depends_on" (YSeq []) = v
             /\ is_str v = false /\ is_ok (str_join "," v) = false)
      /\ (load path = Document (YMap d) ->
          renders (YMap d) = true ->
          valid_project (dict_get d "project" (YMap [])) = true ->
          dict_find d "jobs" = Some (YSeq jobs) ->
          nth_error jobs k = Some (YMap jd) ->
          forallb valid_job (firstn k jobs) = true ->
          parse_cluster_yaml load path = Raise TypeError
          /\ main load prog [path] = Uncaught TypeError)).
Proof.
  intros _. split; [rewrite job_lines_ok; tauto|].
  intros V. split; [intros i; apply job_lines_type_error, V|].
  split; [apply valid_job_depends, V|].
  intros L _ VP J N F.
  assert (parse_cluster_yaml load path = Raise TypeError) as P.
  { unfold parse_cluster_yaml, flatten, fmap. rewrite L.
    rewrite <- project_lines_ok in VP. apply is_ok_true in VP as (p & Hp).
    unfold config_lines. rewrite Hp. unfold jobs_lines. cbn [py_get bind].
    unfold dict_get. rewrite J. cbn [py_len py_iter bind].
    rewrite (jobs_loop_raise jobs k (YMap jd) 0 TypeError N
               (job_lines_type_error _ jd V) F).
    reflexivity. }
  split; [exact P|].
  apply main_unhandled; [right; reflexivity | exact P].
Qed.

Lemma X7_depends_on_type_error_witness :
  renders (YMap numbered_dependency) = true
  /\ main (fun _ => Document (YMap numbered_dependency)) "parse_cluster_yaml.py"
          ["cluster.yaml"] = Uncaught TypeError.
Proof.
  split; [reflexivity|].
  exact (proj2 (proj2 (proj2 (proj2 (X7_depends_on_type_error
           (fun _ => Document (YMap numbered_dependency))
           "parse_cluster_yaml.py" "cluster.yaml" numbered_dependency
           [ YMap [(YStr "name", YStr "simulation")];
             YMap [(YStr "name", YStr "merge_results");
                   (YStr "depends_on", YSeq [YInt 0])] ]
           1 [(YStr "name", YStr "merge_results");
              (YStr "depends_on", YSeq [YInt 0])]
           eq_refl) eq_refl)) eq_refl eq_refl eq_refl eq_refl eq_refl eq_refl)).
Defined.

(** X8. A project section that counts as true and is not a mapping (a
    plain name, a number, a non-empty sequence) makes the function
    raise [AttributeError] at once, whatever the rest of the document,
    and nobody catches it. *)
Theorem X8_project_not_mapping (load : string -> loaded) (prog path : string)
        (d : dict) (v : pyval) :
  load path = Document (YMap d) ->
  dict_find d "project" = Some v ->
  py_truthy v = true ->
  is_map v = false ->
  parse_cluster_yaml load path = Raise AttributeError
  /\ main load prog [path] = Uncaught AttributeError.
Proof.
  intros L F T M.
  assert (parse_cluster_yaml load path = Raise AttributeError) as P.
  { unfold parse_cluster_yaml, flatten, fmap, config_lines, project_lines.
    rewrite L. cbn [py_get bind]. unfold dict_get. rewrite F, T.
    destruct v; try reflexivity. discriminate M. }
  split; [exact P|].
  apply main_unhandled; [left; reflexivity | exact P].
Qed.

Lemma X8_project_not_mapping_witness :
  main (fun _ => Document (YMap [(YStr "project", YStr "demo")]))
       "parse_cluster_yaml.py" ["cluster.yaml"] = Uncaught AttributeError.
Proof.
  exact (proj2 (X8_project_not_mapping
                  (fun _ => Document (YMap [(YStr "project", YStr "demo")]))
                  "parse_cluster_yaml.py" "cluster.yaml"
                  [(YStr "project", YStr "demo")] (YStr "demo")
                  eq_refl eq_refl eq_refl eq_refl)).
Defined.

(** ** What [shlex.quote] leaves alone *)

Lemma length_app_str (a b : string) :
  String.length (a ++ b) = String.length a + String.length b.
Proof. induction a as [|c a IH]; simpl; [|rewrite IH]; reflexivity. Qed.

Lemma length_str_replace (s : string) :
  String.length s <= String.length (str_replace squote Shlex.quoted_squote s).
Proof.
  induction s as [|c s IH]; [apply le_n|].
  cbn [str_replace]. rewrite length_app_str.
  destruct (Ascii.eqb c squote); simpl in *; lia.
Qed.

(** X9. What goes through unquoted: the token is the value itself
    exactly when the value is not empty and made of letters, digits and
    the characters [_@%+=:,./-] only; every other string comes out
    between single quotes, longer than it was; the token of a string is
    never empty, so that an empty token stands for [None] and for
    nothing else. *)
Theorem X9_quote_verbatim_iff_safe :
  (forall s : string,
      Shlex.quote s = s <-> (s <> "" /\ Shlex.all_safe s = true))
  /\ (forall s : string,
         s = "" \/ Shlex.all_safe s = false ->
         (exists body, Shlex.quote s = String squote (body ++ String squote ""))
         /\ String.length s + 2 <= String.length (Shlex.quote s))
  /\ (forall v : pyval, shell_escape v = "" <-> v = YNull).
Proof.
  assert (forall s, s = "" \/ Shlex.all_safe s = false ->
            (exists body, Shlex.quote s = String squote (body ++ String squote ""))
            /\ String.length s + 2 <= String.length (Shlex.quote s)) as Q.
  { intros s [-> | U].
    - split; [exists ""; reflexivity | apply le_n].
    - unfold Shlex.quote. destruct (String.eqb s "") eqn:E.
      + apply String.eqb_eq in E. subst s. discriminate U.
      + rewrite U. split; [eexists; reflexivity|].
        cbn [String.length]. rewrite length_app_str.
        pose proof (length_str_replace s). simpl. lia. }
  split; [|split; [exact Q|]].
  - intros s. split.
    + intros H. destruct (String.eqb s "") eqn:E.
      * apply String.eqb_eq in E. subst s. discriminate H.
      * destruct (Shlex.all_safe s) eqn:S.
        -- split; [|reflexivity]. intros ->. discriminate E.
        -- destruct (Q s (or_intror S)) as [_ L]. rewrite H in L. lia.
    + intros [N S]. apply quote_safe; assumption.
  - assert (forall s, Shlex.quote s <> "") as NE.
    { intros s H. destruct (String.eqb s "") eqn:E.
      - unfold Shlex.quote in H. rewrite E in H. discriminate H.
      - destruct (Shlex.all_safe s) eqn:S.
        + unfold Shlex.quote in H. rewrite E, S in H. rewrite H in E.
          discriminate E.
        + destruct (Q s (or_intror S)) as [(b & B) _]. rewrite B in H.
          discriminate H. }
    intros v.
    destruct v; try (split; [intros H; exfalso; exact (NE _ H) | discriminate]).
    split; reflexivity.
Qed.

Lemma X9_quote_verbatim_iff_safe_witness :
  Shlex.quote "submit_gate.sbatch" = "submit_gate.sbatch"
  /\ String.length "1 10" + 2 <= String.length (Shlex.quote "1 10").
Proof.
  split.
  - apply (proj2 (proj1 X9_quote_verbatim_iff_safe "submit_gate.sbatch")).
    split; [discriminate | reflexivity].
  - apply (proj1 (proj2 X9_quote_verbatim_iff_safe) "1 10").
    right. reflexivity.
Defined.

(** ** What the shell reads in each line *)

Lemma word_escape (v : pyval) :
  Sh.word Sh.Bare (shell_escape v) = Some (shell_value v).
Proof. destruct v; try apply word_quote. reflexivity. Qed.

Lemma assign_escape (n : string) (v : pyval) :
  Sh.is_name n = true ->
  Sh.assign (n ++ "=" ++ shell_escape v) = Some (n, shell_value v).
Proof. intros H. rewrite (assign_name n _ H), word_escape. reflexivity. Qed.

Lemma assign_job_value (i : nat) (field : string) (v : pyval) :
  str_forall Sh.name_char field = true ->
  Sh.assign ("JOB_" ++ str_nat i ++ field ++ "=" ++ shell_escape v)
  = Some ("JOB_" ++ str_nat i ++ field, shell_value v).
Proof. intros F. rewrite (assign_job_line i field _ F), word_escape. reflexivity. Qed.

Lemma assign_num_jobs (n : nat) :
  Sh.assign ("NUM_JOBS=" ++ str_nat n) = Some ("NUM_JOBS", str_nat n).
Proof.
  change ("NUM_JOBS=" ++ str_nat n) with ("NUM_JOBS" ++ "=" ++ str_nat n).
  rewrite (assign_name "NUM_JOBS" _ eq_refl), word_bare_safe; [reflexivity|].
  apply (str_forall_impl _ _ _ digit_safe_char (digits_str_nat n)).
Qed.

Lemma six_lines_bindings (i : nat) (jd : dict) (joined : string) :
  map Sh.assign (six_lines i jd joined) = map Some (job_bindings i jd joined).
Proof.
  unfold six_lines, job_bindings. cbn [map].
  repeat f_equal.
  - exact (assign_job_value i "_NAME" _ eq_refl).
  - exact (assign_job_value i "_SCRIPT" _ eq_refl).
  - exact (assign_job_value i "_TYPE" _ eq_refl).
  - exact (assign_job_value i "_ARRAY" _ eq_refl).
  - exact (assign_job_value i "_DEPENDS_ON" (YStr joined) eq_refl).
  - exact (assign_job_value i "_SBATCH_FLAGS" _ eq_refl).
Qed.

Lemma seven_lines_bindings (cd : dict) :
  map Sh.assign (seven_lines cd) = map Some (claude_bindings cd).
Proof.
  unfold seven_lines, claude_bindings. cbn [map].
  repeat f_equal.
  - exact (assign_escape "CLAUDE_ENABLED" (YStr _) eq_refl).
  - exact (assign_escape "CLAUDE_AUTO_FIX" (YStr _) eq_refl).
  - exact (assign_escape "CLAUDE_MAX_FIX_CYCLES" _ eq_refl).
  - exact (assign_escape "CLAUDE_REVIEW_MODEL" _ eq_refl).
  - exact (assign_escape "CLAUDE_FIX_MODEL" _ eq_refl).
  - exact (assign_escape "CLAUDE_REVIEW_BUDGET" _ eq_refl).
  - exact (assign_escape "CLAUDE_FIX_BUDGET" _ eq_refl).
Qed.

(** X10. What the shell reads: the token of any value that holds no
    integer too long to print, a number, a boolean or a sequence as
    well as a string, evaluates to the [str] of that value less its NUL
    bytes, hence to the [str] itself when it has none, and the token of
    [None] to the empty string; so each line a job or the Claude
    section yields sets its variable to that text for the field (the
    default when the key is absent), the dependencies to the names
    joined by commas, the two flags to the lowercased [str];
    [NUM_JOBS] is set to the number as written. *)
Theorem X10_what_the_shell_reads :
  (forall v : pyval,
      renders v = true ->
      Sh.word Sh.Bare (shell_escape v) = Some (shell_value v)
      /\ (v <> YNull -> str_contains nul (py_str v) = false ->
          Sh.word Sh.Bare (shell_escape v) = Some (py_str v)))
  /\ (forall n : nat,
         Sh.assign ("NUM_JOBS=" ++ str_nat n) = Some ("NUM_JOBS", str_nat n))
  /\ (forall name : pyval,
         renders name = true ->
         Sh.assign ("PROJECT_NAME=" ++ shell_escape name)
         = Some ("PROJECT_NAME", shell_value name))
  /\ (forall (i : nat) (jd : dict) (ls : list string),
         renders (YMap jd) = true ->
         job_lines i (YMap jd) = Ok ls ->
         exists depends joined,
           depends_of (YMap jd) = Ok depends
           /\ str_join "," depends = Ok joined
           /\ map Sh.assign ls = map Some (job_bindings i jd joined))
  /\ (forall (cd : dict) (ls : list string),
         renders (YMap cd) = true ->
         claude_lines (YMap cd) = Ok ls ->
         map Sh.assign ls = map Some (claude_bindings cd)).
Proof.
  split.
  { intros v _. split; [apply word_escape|].
    intros N Z. rewrite word_escape. destruct v; try contradiction (N eq_refl);
      cbn [shell_value]; rewrite (strip_nul_id _ Z); reflexivity. }
  split; [exact assign_num_jobs|].
  split; [intros name _; exact (assign_escape "PROJECT_NAME" name eq_refl)|].
  split.
  - intros i jd ls _ H.
    apply job_lines_six in H as (jd' & dep & jn & E & D & J & ->).
    injection E as <-. exists dep, jn.
    split; [exact D|]. split; [exact J | apply six_lines_bindings].
  - intros cd ls _ H. rewrite claude_lines_map in H. injection H as <-.
    apply seven_lines_bindings.
Qed.

Lemma X10_what_the_shell_reads_witness :
  renders (YMap numeric_claude) = true
  /\ exists ls,
       claude_lines (YMap numeric_claude) = Ok ls
       /\ nth_error (map Sh.assign ls) 5
          = Some (Some ("CLAUDE_REVIEW_BUDGET", "0.5")).
Proof.
  split; [reflexivity|].
  exists (seven_lines numeric_claude). split; [reflexivity|].
  rewrite (proj2 (proj2 (proj2 (proj2 X10_what_the_shell_reads)))
             numeric_claude (seven_lines numeric_claude) eq_refl eq_refl).
  vm_compute. reflexivity.
Defined.

(** ** The whole output as a script *)

Lemma name_char_plain (c : ascii) :
  Sh.name_char c = true ->
  Ascii.eqb c "=" = false /\ Ascii.eqb c newline = false.
Proof. each_char c; intros H; try discriminate H; split; reflexivity. Qed.

Lemma newline_bare (c : ascii) :
  Ascii.eqb c newline = true ->
  Ascii.eqb c squote = false /\ Ascii.eqb c dquote = false /\ Sh.meta c = true.
Proof. each_char c; intros H; try discriminate H; repeat split. Qed.

Lemma snoc_app (a : string) (c : ascii) (b : string) :
  snoc a c ++ b = a ++ String c b.
Proof. unfold snoc. rewrite append_assoc. reflexivity. Qed.

Lemma script_name (n rest n0 : string) :
  str_forall Sh.name_char n = true ->
  script_from (InName n0) (n ++ String "=" rest)
  = script_from (InWord Sh.Bare (n0 ++ n) "") rest.
Proof.
  revert n0. induction n as [|c n IH]; intros n0 H.
  - rewrite append_nil_r. reflexivity.
  - cbn [str_forall] in H. apply andb_prop in H as [Hc Hn].
    destruct (name_char_plain c Hc) as [E N].
    cbn [append script_from]. rewrite E, N, (IH _ Hn), snoc_app. reflexivity.
Qed.

Lemma cons_char_some (c : ascii) (r : option string) (v : string) :
  Sh.cons_char c r = Some v -> exists v', r = Some v' /\ v = String c v'.
Proof.
  destruct r as [v'|]; simpl; intros H; [|discriminate H].
  injection H as <-. eauto.
Qed.

(** Reading a word within a script gives what [Sh.word] gives. *)
Lemma script_word (w : string) (m : Sh.mode) (n v v' tail : string) :
  Sh.word m w = Some v' ->
  script_from (InWord m n v) (w ++ tail)
  = script_from (InWord Sh.Bare n (v ++ v')) tail.
Proof.
  revert m v v'. induction w as [|c w IH]; intros m v v' H.
  - destruct m; try discriminate H. injection H as <-.
    rewrite append_nil_r. reflexivity.
  - cbn [append script_from]. cbn [Sh.word] in H.
    destruct (Ascii.eqb c nul); [destruct m; apply IH, H|].
    destruct m.
    + destruct (Ascii.eqb c newline) eqn:N.
      * destruct (newline_bare c N) as (Q & D & M). rewrite Q, D, M in H.
        discriminate H.
      * destruct (Ascii.eqb c squote); [apply IH, H|].
        destruct (Ascii.eqb c dquote); [apply IH, H|].
        destruct (Sh.meta c); [discriminate H|].
        apply cons_char_some in H as (v'' & H & ->).
        rewrite (IH _ _ _ H), snoc_app. reflexivity.
    + destruct (Ascii.eqb c squote); [apply IH, H|].
      apply cons_char_some in H as (v'' & H & ->).
      rewrite (IH _ _ _ H), snoc_app. reflexivity.
    + destruct (Ascii.eqb c dquote); [apply IH, H|].
      destruct (Ascii.eqb c dollar || Ascii.eqb c backtick
                || Ascii.eqb c backslash); [discriminate H|].
      apply cons_char_some in H as (v'' & H & ->).
      rewrite (IH _ _ _ H), snoc_app. reflexivity.
Qed.

Lemma split_eq_sound (l n w : string) :
  Sh.split_eq l = Some (n, w) -> l = n ++ String "=" w.
Proof.
  revert n. induction l as [|c l IH]; intros n H; [discriminate H|].
  cbn [Sh.split_eq] in H. destruct (Ascii.eqb c "=") eqn:E.
  - apply Ascii.eqb_eq in E. injection H as <- <-. subst c. reflexivity.
  - destruct (Sh.split_eq l) as [[n' w']|]; [|discriminate H].
    injection H as <- <-. rewrite (IH n' eq_refl). reflexivity.
Qed.

Lemma assign_parts (l n v : string) :
  Sh.assign l = Some (n, v) ->
  exists w, l = n ++ String "=" w /\ Sh.is_name n = true
            /\ Sh.word Sh.Bare w = Some v.
Proof.
  unfold Sh.assign. intros H.
  destruct (Sh.split_eq l) as [[n' w]|] eqn:S; [|discriminate H].
  destruct (Sh.is_name n') eqn:I; [|discriminate H].
  destruct (Sh.word Sh.Bare w) as [v'|] eqn:W; [|discriminate H].
  injection H as <- <-. exists w. split; [apply split_eq_sound, S | auto].
Qed.

Lemma is_name_chars (n : string) :
  Sh.is_name n = true -> str_forall Sh.name_char n = true.
Proof.
  destruct n; [discriminate|]. unfold Sh.is_name. intros H.
  apply andb_prop in H as [_ H]. exact H.
Qed.

(** A line that is an assignment, followed by the rest of the script. *)
Lemma script_line (l n v tail : string) :
  Sh.assign l = Some (n, v) ->
  script_from (InName "") (l ++ tail) = script_from (InWord Sh.Bare n v) tail.
Proof.
  intros H. apply assign_parts in H as (w & -> & I & W).
  rewrite append_assoc. cbn [append].
  rewrite (script_name n (w ++ tail) "" (is_name_chars n I)).
  rewrite (script_word w Sh.Bare _ "" v tail W). reflexivity.
Qed.

(** Lines that are assignments, joined by newlines, with or without a
    newline after the last, are the script of these assignments. *)
Lemma script_lines (ls : list string) (pairs : list (string * string)) :
  map Sh.assign ls = map Some pairs ->
  sh_script (String.concat nl ls) = Some pairs
  /\ sh_script (String.concat nl ls ++ nl) = Some pairs.
Proof.
  unfold sh_script. revert pairs.
  induction ls as [|l ls IH]; intros pairs H.
  - destruct pairs; [|discriminate H]. split; reflexivity.
  - destruct pairs as [|[n v] pairs]; [discriminate H|].
    cbn [map] in H. injection H as A H.
    pose proof (assign_parts l n v A) as (_ & _ & I & _).
    destruct (IH pairs H) as [IH1 IH2].
    destruct ls as [|l2 ls].
    + destruct pairs; [|discriminate H]. cbn [String.concat].
      split.
      * rewrite <- (append_nil_r l), (script_line l n v "" A).
        cbn [script_from]. unfold bound. rewrite I. reflexivity.
      * rewrite (script_line l n v nl A).
        cbn [script_from nl]. rewrite Ascii.eqb_refl. unfold bound. rewrite I.
        reflexivity.
    + change (String.concat nl (l :: l2 :: ls))
        with (l ++ nl ++ String.concat nl (l2 :: ls)).
      split.
      * rewrite (script_line l n v _ A).
        cbn [append nl script_from]. rewrite Ascii.eqb_refl, IH1.
        unfold bound. rewrite I. reflexivity.
      * rewrite !append_assoc. rewrite (script_line l n v _ A).
        cbn [append nl script_from]. rewrite Ascii.eqb_refl.
        cbn [nl] in IH2. rewrite IH2. unfold bound. rewrite I. reflexivity.
Qed.

(** ** The variables of the output *)

Lemma append_inv_head (a x y : string) : a ++ x = a ++ y -> x = y.
Proof.
  induction a as [|c a IH]; simpl; intros H; [exact H|].
  injection H as H. apply IH, H.
Qed.

Lemma job_names (i : nat) (jd : dict) (joined : string) :
  map fst (job_bindings i jd joined)
  = map (append ("JOB_" ++ str_nat i))
        ["_NAME"; "_SCRIPT"; "_TYPE"; "_ARRAY"; "_DEPENDS_ON"; "_SBATCH_FLAGS"].
Proof. reflexivity. Qed.

Lemma job_names_nodup (i : nat) (jd : dict) (joined : string) :
  NoDup (map fst (job_bindings i jd joined)).
Proof.
  rewrite job_names. apply Injective_map_NoDup.
  - intros x y. apply append_inv_head.
  - repeat (constructor; [simpl; intuition discriminate|]). constructor.
Qed.

Lemma job_names_index (i : nat) (jd : dict) (joined : string) :
  Forall (fun n => job_index n = Some i) (map fst (job_bindings i jd joined)).
Proof.
  unfold job_bindings. cbn [map fst].
  repeat (constructor; [apply job_index_line|]). constructor.
Qed.

(** The lines of the loop are assignments to variables that differ from
    one another and carry an index from [i] on. *)
Lemma jobs_loop_bindings (jobs : list pyval) (i : nat) (J : list string) :
  jobs_loop i jobs = Ok J ->
  exists P,
    map Sh.assign J = map Some P
    /\ NoDup (map fst P)
    /\ Forall (fun n => exists k, i <= k /\ job_index n = Some k) (map fst P).
Proof.
  revert i J. induction jobs as [|job jobs IH]; cbn [jobs_loop]; intros i J H.
  - injection H as <-. exists []. repeat split; constructor.
  - apply bind_ok in H as (ls & Hl & H).
    apply bind_ok in H as (more & Hm & H). injection H as <-.
    apply job_lines_six in Hl as (jd & dep & jn & _ & _ & _ & ->).
    destruct (IH _ _ Hm) as (P & A & N & F).
    exists (job_bindings i jd jn ++ P)%list.
    rewrite !map_app, six_lines_bindings, A.
    split; [reflexivity|]. split.
    + apply NoDup_app; [apply job_names_nodup | exact N|].
      intros n I1 I2.
      pose proof (job_names_index i jd jn) as X.
      rewrite Forall_forall in X, F.
      destruct (F n I2) as (k & Hk & E). rewrite (X n I1) in E.
      injection E as <-. lia.
    + apply Forall_app. split.
      * eapply Forall_impl; [|apply job_names_index].
        intros n E. exists i. split; [apply le_n | exact E].
      * eapply Forall_impl; [|exact F].
        intros n (k & Hk & E). exists k. split; [lia | exact E].
Qed.

(** The lines of a successful run are assignments, and no variable is
    assigned twice. *)
Lemma output_bindings (d : dict) (ls : list string) :
  config_lines (YMap d) = Ok ls ->
  exists n jobs J cd Pp PJ,
    py_len (dict_get d "jobs" (YSeq [])) = Ok n
    /\ List.length jobs = n
    /\ jobs_loop 0 jobs = Ok J
    /\ dict_get d "claude" (YMap []) = YMap cd
    /\ map Sh.assign J = map Some PJ
    /\ (map fst Pp = [] \/ map fst Pp = ["PROJECT_NAME"])
    /\ map Sh.assign ls
       = map Some (Pp ++ ("NUM_JOBS", str_nat n) :: PJ ++ claude_bindings cd)
    /\ NoDup (map fst (Pp ++ ("NUM_JOBS", str_nat n) :: PJ ++ claude_bindings cd)).
Proof.
  intros Hls.
  pose proof (config_lines_shape d ls Hls)
    as (p & n & jobs & J & cd & Hp & Hn & _ & Hlen & HJ & Hcd & ->).
  destruct (jobs_loop_bindings _ _ _ HJ) as (PJ & AJ & NJ & FJ).
  assert (exists Pp, map Sh.assign p = map Some Pp
                     /\ (map fst Pp = [] \/ map fst Pp = ["PROJECT_NAME"]))
    as (Pp & Ap & Np).
  { apply project_lines_cases in Hp.
    destruct (dict_get d "project" (YMap [])) as [ | | | | | | [|kv r]].
    1-7: destruct Hp as [_ ->]; exists []; split; [reflexivity | left; reflexivity].
    subst p. eexists [(_, _)]. split; [|right; reflexivity].
    cbn [map]. f_equal. exact (assign_escape "PROJECT_NAME" _ eq_refl). }
  assert (forall x, In x (map fst PJ) -> job_index x <> None) as IJ.
  { intros x I. rewrite Forall_forall in FJ.
    destruct (FJ x I) as (k & _ & E). congruence. }
  exists n, jobs, J, cd, Pp, PJ.
  repeat (split; [assumption|]).
  split.
  { rewrite !map_app. cbn [map]. rewrite !map_app, Ap, AJ, assign_num_jobs.
    rewrite seven_lines_bindings. reflexivity. }
  rewrite map_app. cbn [map fst]. rewrite map_app.
  assert (NoDup (map fst (claude_bindings cd))) as NC.
  { unfold claude_bindings. cbn [map fst].
    repeat (constructor; [simpl; intuition discriminate|]). constructor. }
  assert (forall x, In x (map fst (claude_bindings cd)) -> job_index x = None
                                                     /\ x <> "NUM_JOBS"
                                                     /\ x <> "PROJECT_NAME") as IC.
  { unfold claude_bindings. cbn [map fst]. intros x I. simpl in I.
    repeat (destruct I as [<- | I]; [repeat split; discriminate|]).
    contradiction. }
  assert (NoDup ("NUM_JOBS" :: map fst PJ ++ map fst (claude_bindings cd))) as NN.
  { constructor.
    - intros I. apply in_app_or in I as [I | I].
      + apply (IJ _ I). reflexivity.
      + destruct (IC _ I) as (_ & X & _). apply X. reflexivity.
    - apply NoDup_app; [exact NJ | exact NC|].
      intros x I1 I2. apply (IJ _ I1). apply (IC _ I2). }
  destruct Np as [-> | ->]; [exact NN|].
  cbn [app]. constructor; [|exact NN].
  intros [I | I]; [discriminate I|].
  apply in_app_or in I as [I | I].
  - apply (IJ _ I). reflexivity.
  - destruct (IC _ I) as (_ & _ & X). apply X. reflexivity.
Qed.

(** X11. The output is a script: for a valid document the text
    returned, read by the shell as a whole, with or without the newline
    that [print] adds, is the sequence of the assignments of its lines,
    one after the other; a newline inside a value ends no assignment.
    The script sets [NUM_JOBS] to the number of jobs and ends with the
    seven variables of the Claude section. *)
Theorem X11_output_is_a_script (config : pyval) :
  valid_config config = true ->
  exists d ls text P,
    config = YMap d
    /\ config_lines config = Ok ls
    /\ flatten config = Ok text
    /\ map Sh.assign ls = map Some P
    /\ sh_script text = Some P
    /\ sh_script (text ++ nl) = Some P
    /\ exists n P0 cd,
         py_len (dict_get d "jobs" (YSeq [])) = Ok n
         /\ dict_get d "claude" (YMap []) = YMap cd
         /\ P = (P0 ++ claude_bindings cd)%list
         /\ In ("NUM_JOBS", str_nat n) P0.
Proof.
  intros V. destruct (valid_config_lines config V) as (d & ls & -> & Hls).
  destruct (output_bindings d ls Hls)
    as (n & jobs & J & cd & Pp & PJ & Hn & _ & _ & Hcd & _ & _ & A & _).
  destruct (script_lines ls _ A) as [S1 S2].
  exists d, ls, (String.concat nl ls),
    (Pp ++ ("NUM_JOBS", str_nat n) :: PJ ++ claude_bindings cd)%list.
  split; [reflexivity|]. split; [exact Hls|].
  split; [unfold flatten, fmap; rewrite Hls; reflexivity|].
  split; [exact A|]. split; [exact S1|]. split; [exact S2|].
  exists n, (Pp ++ ("NUM_JOBS", str_nat n) :: PJ)%list, cd.
  split; [exact Hn|]. split; [exact Hcd|]. split.
  - rewrite <- app_assoc. reflexivity.
  - apply in_or_app. right. left. reflexivity.
Qed.

Lemma X11_output_is_a_script_witness :
  valid_config two_line_name = true
  /\ exists text P,
       flatten two_line_name = Ok text
       /\ sh_script (text ++ nl) = Some P
       /\ nth_error P 0 = Some ("NUM_JOBS", "1")
       /\ nth_error P 1 = Some ("JOB_0_NAME", "first" ++ nl ++ "NUM_JOBS=7")
       /\ List.length P = 14.
Proof.
  split; [reflexivity|].
  destruct (X11_output_is_a_script two_line_name eq_refl)
    as (d & ls & text & P & _ & _ & F & _ & _ & S & _).
  exists text, P. split; [exact F|]. split; [exact S|].
  vm_compute in F. injection F as <-.
  vm_compute in S. injection S as <-.
  repeat split.
Defined.

(** X12. No variable is assigned twice: in the output of a valid
    document the variables of the assignments are pairwise different,
    so the order in which the shell runs them does not matter. *)
Theorem X12_variables_distinct (config : pyval) :
  valid_config config = true ->
  exists text P,
    flatten config = Ok text
    /\ sh_script text = Some P
    /\ NoDup (map fst P).
Proof.
  intros V. destruct (valid_config_lines config V) as (d & ls & -> & Hls).
  destruct (output_bindings d ls Hls)
    as (n & jobs & J & cd & Pp & PJ & _ & _ & _ & _ & _ & _ & A & N).
  exists (String.concat nl ls),
    (Pp ++ ("NUM_JOBS", str_nat n) :: PJ ++ claude_bindings cd)%list.
  split; [unfold flatten, fmap; rewrite Hls; reflexivity|].
  split; [apply (script_lines ls _ A) | exact N].
Qed.

Lemma X12_variables_distinct_witness :
  valid_config two_jobs = true
  /\ exists text P,
       flatten two_jobs = Ok text
       /\ sh_script text = Some P
       /\ NoDup (map fst P)
       /\ List.length P = 20.
Proof.
  split; [reflexivity|].
  destruct (X12_variables_distinct two_jobs eq_refl) as (text & P & F & S & N).
  exists text, P. split; [exact F|]. split; [exact S|]. split; [exact N|].
  vm_compute in F. injection F as <-.
  vm_compute in S. injection S as <-. reflexivity.
Defined.

(** ** The indices a caller can count on *)

Lemma map_some_inj {A} (l1 l2 : list A) : map Some l1 = map Some l2 -> l1 = l2.
Proof.
  revert l2. induction l1 as [|a l1 IH]; intros [|b l2] H; try discriminate H.
  - reflexivity.
  - cbn [map] in H. injection H as -> H. rewrite (IH _ H). reflexivity.
Qed.

Lemma job_bindings_fields (i : nat) (jd : dict) (joined field : string) :
  In field job_fields ->
  exists v, In ("JOB_" ++ str_nat i ++ field, v) (job_bindings i jd joined).
Proof.
  unfold job_fields, job_bindings. intros I. simpl in I.
  repeat (destruct I as [<- | I]; [eexists; simpl; eauto 8|]).
  contradiction.
Qed.

(** The variables of the loop carry the indices [i], ..., up to the
    number of jobs, each of them with its six fields. *)
Lemma jobs_loop_range (jobs : list pyval) (i : nat) (J : list string)
      (P : list (string * string)) :
  jobs_loop i jobs = Ok J ->
  map Sh.assign J = map Some P ->
  Forall (fun n => exists k, i <= k < i + List.length jobs
                             /\ job_index n = Some k) (map fst P)
  /\ forall k field,
       k < List.length jobs -> In field job_fields ->
       exists v, In ("JOB_" ++ str_nat (i + k) ++ field, v) P.
Proof.
  revert i J P. induction jobs as [|job jobs IH]; cbn [jobs_loop]; intros i J P H A.
  - injection H as <-. destruct P; [|discriminate A].
    split; [constructor|]. intros k field Hk. inversion Hk.
  - apply bind_ok in H as (ls & Hl & H).
    apply bind_ok in H as (more & Hm & H). injection H as <-.
    apply job_lines_six in Hl as (jd & dep & jn & _ & _ & _ & ->).
    rewrite map_app in A. symmetry in A.
    apply map_eq_app in A as (P1 & P2 & -> & A1 & A2).
    rewrite six_lines_bindings in A1. apply map_some_inj in A1. subst P1.
    symmetry in A2. destruct (IH _ _ _ Hm A2) as [F C].
    split.
    + rewrite map_app. apply Forall_app. split.
      * eapply Forall_impl; [|apply job_names_index].
        intros n E. exists i. cbn [List.length]. split; [lia | exact E].
      * eapply Forall_impl; [|exact F].
        intros n (k & Hk & E). exists k. cbn [List.length]. split; [lia | exact E].
    + intros k field Hk I. destruct k as [|k].
      * rewrite Nat.add_0_r.
        destruct (job_bindings_fields i jd jn field I) as (v & Hv).
        exists v. apply in_or_app. left. exact Hv.
      * cbn [List.length] in Hk.
        destruct (C k field ltac:(lia) I) as (v & Hv).
        exists v. apply in_or_app. right.
        replace (i + S k) with (S i + k) by lia. exact Hv.
Qed.

(** X13. The indices a caller can count on: in the script of a valid
    document with [n] jobs, each of [JOB_i_NAME], [JOB_i_SCRIPT],
    [JOB_i_TYPE], [JOB_i_ARRAY], [JOB_i_DEPENDS_ON] and
    [JOB_i_SBATCH_FLAGS] is set for every [i] below [n], [NUM_JOBS] is
    set to [n], and no variable with a job index of [n] or more is
    set. *)
Theorem X13_indices_below_num_jobs (config : pyval) :
  valid_config config = true ->
  exists d n text P,
    config = YMap d
    /\ py_len (dict_get d "jobs" (YSeq [])) = Ok n
    /\ flatten config = Ok text
    /\ sh_script text = Some P
    /\ In ("NUM_JOBS", str_nat n) P
    /\ (forall i field,
           i < n -> In field job_fields ->
           exists v, In ("JOB_" ++ str_nat i ++ field, v) P)
    /\ (forall name k,
           In name (map fst P) -> job_index name = Some k -> k < n).
Proof.
  intros V. destruct (valid_config_lines config V) as (d & ls & -> & Hls).
  destruct (output_bindings d ls Hls)
    as (n & jobs & J & cd & Pp & PJ & Hn & Hlen & HJ & _ & AJ & Np & A & _).
  destruct (jobs_loop_range jobs 0 J PJ HJ AJ) as [F C].
  exists d, n, (String.concat nl ls),
    (Pp ++ ("NUM_JOBS", str_nat n) :: PJ ++ claude_bindings cd)%list.
  split; [reflexivity|]. split; [exact Hn|].
  split; [unfold flatten, fmap; rewrite Hls; reflexivity|].
  split; [apply (script_lines ls _ A)|].
  split; [apply in_or_app; right; left; reflexivity|].
  split.
  - intros i field Hi I. rewrite <- Hlen in Hi.
    destruct (C i field Hi I) as (v & Hv). exists v.
    apply in_or_app. right. right. apply in_or_app. left. exact Hv.
  - intros name k I E. rewrite map_app in I. cbn [map fst] in I.
    rewrite map_app in I.
    apply in_app_or in I as [I | [I | I]].
    + destruct Np as [N | N]; rewrite N in I; simpl in I;
        [contradiction | destruct I as [<- | []]; discriminate E].
    + subst name. discriminate E.
    + apply in_app_or in I as [I | I].
      * rewrite Forall_forall in F. destruct (F name I) as (k' & Hk & E').
        rewrite E in E'. injection E' as <-. lia.
      * unfold claude_bindings in I. simpl in I.
        repeat (destruct I as [<- | I]; [discriminate E|]). contradiction.
Qed.

Lemma X13_indices_below_num_jobs_witness :
  valid_config two_jobs = true
  /\ exists text P,
       flatten two_jobs = Ok text
       /\ sh_script text = Some P
       /\ In ("NUM_JOBS", "2") P
       /\ exists v, In ("JOB_1_DEPENDS_ON", v) P.
Proof.
  split; [reflexivity|].
  destruct (X13_indices_below_num_jobs two_jobs eq_refl)
    as (d & n & text & P & Ed & Hn & F & S & N & C & _).
  injection Ed as <-. injection Hn as <-.
  exists text, P. split; [exact F|]. split; [exact S|]. split; [exact N|].
  apply (C 1 "_DEPENDS_ON"); [apply le_n | simpl; tauto].
Defined.

(** ** Documents with little in them *)

(** X14. A document with none of the three keys, the empty mapping
    among them, is valid and gives eight lines: no jobs and the
    defaults of the Claude section. *)
Theorem X14_bare_document (d : dict) :
  (forall key, In key config_keys -> dict_find d key = None) ->
  config_lines (YMap d) = Ok ("NUM_JOBS=0" :: claude_defaults)
  /\ flatten (YMap d) = Ok (String.concat nl ("NUM_JOBS=0" :: claude_defaults)).
Proof.
  intros A.
  assert (agree_on config_keys d []) as G by (intros key I; apply (A key I)).
  assert (config_lines (YMap d) = Ok ("NUM_JOBS=0" :: claude_defaults)) as C.
  { rewrite (config_lines_agree d [] G). reflexivity. }
  split; [exact C|]. unfold flatten, fmap. rewrite C. reflexivity.
Qed.

Lemma X14_bare_document_witness :
  config_lines (YMap [(YStr "version", YInt 2)])
  = Ok ("NUM_JOBS=0" :: claude_defaults).
Proof.
  apply (X14_bare_document [(YStr "version", YInt 2)]).
  intros key [<- | [<- | [<- | []]]]; reflexivity.
Defined.

(** X15. A [jobs] section that is not a sequence: an empty string and
    an empty mapping count as no jobs, [NUM_JOBS=0]; a non-empty string
    is counted, and then its first character, not being a mapping,
    raises [AttributeError]; null, a boolean and a number have no
    length and raise [TypeError]. *)
Theorem X15_jobs_not_a_sequence (d : dict) (v : pyval) :
  dict_find d "jobs" = Some v ->
  (v = YStr "" \/ v = YMap [] -> jobs_lines (YMap d) = Ok ["NUM_JOBS=0"])
  /\ (forall c s, v = YStr (String c s) ->
                  jobs_lines (YMap d) = Raise AttributeError)
  /\ (is_ok (py_len v) = false -> jobs_lines (YMap d) = Raise TypeError)
  /\ (is_ok (py_len v) = false <->
      match v with
      | YNull | YBool _ | YInt _ | YFloat _ => True
      | _ => False
      end).
Proof.
  intros F.
  assert (jobs_lines (YMap d)
          = bind (py_len v) (fun n =>
            bind (py_iter v) (fun elems =>
            bind (jobs_loop 0 elems) (fun ls =>
            Ok (("NUM_JOBS=" ++ str_nat n)%string :: ls))))) as E.
  { unfold jobs_lines. cbn [py_get bind]. unfold dict_get. rewrite F.
    reflexivity. }
  rewrite E. split; [|split; [|split]].
  - intros [-> | ->]; reflexivity.
  - intros c s ->. reflexivity.
  - destruct v; simpl; intros H; try discriminate H; reflexivity.
  - destruct v; simpl; split; intros H; try discriminate H; try contradiction;
      auto.
Qed.

Lemma X15_jobs_not_a_sequence_witness :
  jobs_lines (YMap [(YStr "jobs", YStr "")]) = Ok ["NUM_JOBS=0"]
  /\ jobs_lines (YMap [(YStr "jobs", YStr "simulation")]) = Raise AttributeError
  /\ jobs_lines (YMap [(YStr "jobs", YInt 2)]) = Raise TypeError.
Proof.
  split; [|split].
  - apply (proj1 (X15_jobs_not_a_sequence [(YStr "jobs", YStr "")] (YStr "")
                    eq_refl)).
    left. reflexivity.
  - apply (proj1 (proj2 (X15_jobs_not_a_sequence
                           [(YStr "jobs", YStr "simulation")]
                           (YStr "simulation") eq_refl)) "s"%char "imulation").
    reflexivity.
  - apply (proj1 (proj2 (proj2 (X15_jobs_not_a_sequence
                                  [(YStr "jobs", YInt 2)] (YInt 2) eq_refl)))).
    reflexivity.
Defined.

(** ** Numbers and booleans *)

Lemma nonempty_app (a b : string) : nonempty (a ++ b) = nonempty a || nonempty b.
Proof. destruct a; [reflexivity | reflexivity]. Qed.

Lemma quote_verbatim (s : string) :
  nonempty s = true -> Shlex.all_safe s = true -> Shlex.quote s = s.
Proof.
  intros N S. apply quote_safe; [|exact S]. intros ->. discriminate N.
Qed.

Lemma safe_string_of_uint (d : Decimal.uint) :
  Shlex.all_safe (NilZero.string_of_uint d) = true
  /\ nonempty (NilZero.string_of_uint d) = true.
Proof.
  split.
  - unfold NilZero.string_of_uint.
    destruct d; try reflexivity;
      apply (str_forall_impl _ _ _ digit_safe_char (digits_string_of_uint _)).
  - destruct d; reflexivity.
Qed.

Lemma safe_str_int (z : Z) :
  Shlex.all_safe (str_int z) = true /\ nonempty (str_int z) = true.
Proof.
  unfold str_int, NilZero.string_of_int.
  destruct (Z.to_int z) as [d|d]; [apply safe_string_of_uint|].
  split; [|reflexivity].
  unfold Shlex.all_safe. cbn [str_forall]. apply (safe_string_of_uint d).
Qed.

Lemma all_safe_app (a b : string) :
  Shlex.all_safe (a ++ b) = Shlex.all_safe a && Shlex.all_safe b.
Proof. apply str_forall_app. Qed.

Lemma safe_zeros (n : nat) : Shlex.all_safe (zeros n) = true.
Proof. induction n; [reflexivity | exact IHn]. Qed.

Lemma safe_substring (s : string) (n m : nat) :
  Shlex.all_safe s = true -> Shlex.all_safe (substring n m s) = true.
Proof.
  unfold Shlex.all_safe. revert n m. induction s as [|c s IH]; intros n m H.
  - destruct n, m; reflexivity.
  - cbn [str_forall] in H. apply andb_prop in H as [Hc Hs].
    destruct n as [|n]; [destruct m as [|m]|]; cbn [substring]; try reflexivity.
    + cbn [str_forall]. rewrite Hc, (IH 0 m Hs). reflexivity.
    + apply IH, Hs.
Qed.

Lemma safe_rstrip_zeros (s : string) :
  Shlex.all_safe s = true -> Shlex.all_safe (rstrip_zeros s) = true.
Proof.
  unfold Shlex.all_safe. induction s as [|c s IH]; intros H; [reflexivity|].
  cbn [str_forall] in H. apply andb_prop in H as [Hc Hs].
  cbn [rstrip_zeros]. specialize (IH Hs).
  destruct (rstrip_zeros s) as [|c' t].
  - destruct (Ascii.eqb c "0"); [reflexivity|].
    cbn [str_forall]. rewrite Hc. reflexivity.
  - cbn [str_forall] in *. rewrite Hc. exact IH.
Qed.

Lemma safe_float_layout (ds : string) (decpt : Z) :
  Shlex.all_safe ds = true ->
  Shlex.all_safe (float_layout ds decpt) = true
  /\ nonempty (float_layout ds decpt) = true.
Proof.
  intros S. unfold float_layout.
  destruct ((decpt <=? -4) || (16 <? decpt))%Z.
  - assert (Shlex.all_safe
              match ds with
              | String c EmptyString => ds
              | String c rest => String c ("." ++ rest)
              | EmptyString => ds
              end = true) as M.
    { destruct ds as [|c [|c' r]]; exact S. }
    split.
    + rewrite !all_safe_app, M, (proj1 (safe_str_int _)).
      destruct (decpt - 1 <? 0)%Z, (Z.abs (decpt - 1) <? 10)%Z; reflexivity.
    + rewrite !nonempty_app. cbn. apply orb_true_r.
  - destruct (decpt <=? 0)%Z.
    + split; [|reflexivity].
      change ("0." ++ zeros (Z.to_nat (- decpt)) ++ ds)
        with ("0." ++ (zeros (Z.to_nat (- decpt)) ++ ds)).
      rewrite !all_safe_app, safe_zeros, S. reflexivity.
    + destruct (Z.of_nat (String.length ds) <=? decpt)%Z.
      * split.
        -- rewrite !all_safe_app, safe_zeros, S. reflexivity.
        -- rewrite !nonempty_app. cbn. rewrite !orb_true_r. reflexivity.
      * split.
        -- rewrite !all_safe_app, !safe_substring by exact S. reflexivity.
        -- rewrite !nonempty_app. cbn. rewrite !orb_true_r. reflexivity.
Qed.

Lemma safe_float_repr (f : spec_float) :
  Shlex.all_safe (float_repr f) = true /\ nonempty (float_repr f) = true.
Proof.
  destruct f as [s | s | | s m0 e0]; try (destruct s; split; reflexivity).
  - split; reflexivity.
  - unfold float_repr.
    destruct (float_canon (Z.pos m0) e0) as [m e].
    destruct (float_shortest 17 m e (float_decpt 640 m e (-324)) 1) as [k p].
    match goal with
    | |- context [float_layout ?ds ?dp] =>
        destruct (safe_float_layout ds dp
                    (safe_rstrip_zeros _ (proj1 (safe_str_int k)))) as [L N]
    end.
    split.
    + rewrite all_safe_app, L. destruct s; reflexivity.
    + rewrite nonempty_app, N. apply orb_true_r.
Qed.

(** X16. Numbers and booleans are never quoted: the [str] of an
    integer that is not too long to print, of a float and of a boolean
    holds safe characters only, so the token is that text as it is. *)
Theorem X16_numbers_verbatim :
  (forall z : Z, int_renders z = true -> shell_escape (YInt z) = str_int z)
  /\ (forall f : spec_float, shell_escape (YFloat f) = float_repr f)
  /\ (forall b : bool, shell_escape (YBool b) = if b then "True" else "False")
  /\ (forall v : pyval,
         match v with YInt _ | YFloat _ | YBool _ => True | _ => False end ->
         renders v = true ->
         shell_escape v = py_str v
         /\ Shlex.all_safe (shell_escape v) = true).
Proof.
  assert (forall z, shell_escape (YInt z) = str_int z) as I.
  { intros z. cbn [shell_escape py_str py_repr].
    apply quote_verbatim; apply safe_str_int. }
  assert (forall f, shell_escape (YFloat f) = float_repr f) as F.
  { intros f. cbn [shell_escape py_str py_repr].
    apply quote_verbatim; apply safe_float_repr. }
  assert (forall b : bool, shell_escape (YBool b) = if b then "True" else "False")
    as B by (intros []; reflexivity).
  split; [intros z _; apply I|]. split; [exact F|]. split; [exact B|].
  intros v H _. destruct v; try contradiction.
  - rewrite B. destruct b; split; reflexivity.
  - rewrite I. split; [reflexivity | apply safe_str_int].
  - rewrite F. split; [reflexivity | apply safe_float_repr].
Qed.

Lemma X16_numbers_verbatim_witness :
  int_renders (-12) = true
  /\ shell_escape (YInt (-12)) = "-12"
  /\ shell_escape (YFloat one) = "1.0"
  /\ Shlex.all_safe (shell_escape (YFloat half)) = true.
Proof.
  split; [reflexivity|]. split; [|split].
  - exact (proj1 X16_numbers_verbatim (-12)%Z eq_refl).
  - rewrite (proj1 (proj2 (proj2 (proj2 X16_numbers_verbatim)) (YFloat one) I
                      eq_refl)).
    vm_compute. reflexivity.
  - exact (proj2 (proj2 (proj2 (proj2 X16_numbers_verbatim)) (YFloat half) I
                    eq_refl)).
Defined.
